(** * DolFin database operations (neo_dolfin/api/optimized_api/API_db_op.py)

    A shallow embedding of the module's operations on the SQLite file
    [dolfin_db.db] and on the remote Basiq provider, and the properties of
    the design specification checked against them.

    Modelling decisions, all read off the source:
    - Python values decoded from JSON are [pyval]; a float is its IEEE-754
      binary64 bit pattern, a dict is an association list in key order.
    - A table cell is an [sqlval].  A user id is a Python int; the arguments
      of [register_user] and the cells of the DataFrame handed to
      [cache_transactions] are [None], ints, floats or strings.  Every value
      passed for a [?] is bound first: an int outside 64 bits raises
      [OverflowError], a NaN becomes NULL.  A value is stored as the
      affinity of its column has it: a VARCHAR or TEXT column turns numbers
      into text, the REAL columns [amount] and [balance] and the TIMESTAMP
      column [postDate] turn a numeric text into a number.
    - The conversions of SQLite between texts and numbers are not code of
      the module: they are the [engine], a parameter of the model.
    - A statement is prepared, then its parameters are bound, then it runs:
      a missing table is reported before a parameter that does not fit.
    - A Python exception is [Raise]; [except sqlite3.Error] catches exactly
      [SqliteError].
    - [with sqlite3.connect(..) as conn] commits when the body leaves
      normally (also through [return]) and rolls back when it raises.
      Opening the file and committing do not fail; a missing table is the
      storage failure the model has.
    - The provider client, the auth token and the web browser are external:
      they are an [environment], which also holds the engine, and every call
      to them is logged in the world's trace. *)

From Stdlib Require Import ZArith List String Bool Lia DecimalString.
Import ListNotations.
Local Set Warnings "-register-all".
Local Open Scope string_scope.
Local Open Scope list_scope.
Local Open Scope Z_scope.

(** ** Python values *)

Inductive pyval : Type :=
| PNone
| PBool (b : bool)
| PInt (z : Z)
| PFloat (bits : Z)
| PStr (s : string)
| PList (l : list pyval)
| PDict (d : list (string * pyval)).

Inductive exn : Type :=
| SqliteError (msg : string)
| KeyError (key : string)
| TypeError
| AttributeError
| OverflowError
| OtherError (name : string).

Inductive outcome (A : Type) : Type :=
| Ret (a : A)
| Raise (e : exn).
Arguments Ret {A} a.
Arguments Raise {A} e.

(** Truth value of a Python object, as tested by [if x] and [x if c else y]. *)
Definition truthy (v : pyval) : bool :=
  match v with
  | PNone => false
  | PBool b => b
  | PInt z => negb (z =? 0)
  | PFloat bits => negb ((bits =? 0) || (bits =? 2 ^ 63))
  | PStr s => negb (s =? "")%string
  | PList l => match l with [] => false | _ :: _ => true end
  | PDict d => match d with [] => false | _ :: _ => true end
  end.

Fixpoint dict_lookup (k : string) (d : list (string * pyval)) : option pyval :=
  match d with
  | [] => None
  | (k', v) :: d' => if (k =? k')%string then Some v else dict_lookup k d'
  end.

(** [v[k]] with a string key. *)
Definition getitem (v : pyval) (k : string) : outcome pyval :=
  match v with
  | PDict d =>
      match dict_lookup k d with
      | Some x => Ret x
      | None => Raise (KeyError k)
      end
  | _ => Raise TypeError
  end.

(** [v.get(k)]. *)
Definition get_method (v : pyval) (k : string) : outcome pyval :=
  match v with
  | PDict d =>
      match dict_lookup k d with
      | Some x => Ret x
      | None => Ret PNone
      end
  | _ => Raise AttributeError
  end.

Fixpoint chars (s : string) : list pyval :=
  match s with
  | EmptyString => []
  | String c s' => PStr (String c EmptyString) :: chars s'
  end.

(** The items a [for] loop draws from [v]. *)
Definition iter_values (v : pyval) : outcome (list pyval) :=
  match v with
  | PList l => Ret l
  | PDict d => Ret (map (fun kv => PStr (fst kv)) d)
  | PStr s => Ret (chars s)
  | _ => Raise TypeError
  end.

(** ** SQLite values *)

Inductive sqlval : Type :=
| SNull
| SInt (z : Z)
| SReal (bits : Z)
| SText (s : string).

Definition sqlval_eqb (a b : sqlval) : bool :=
  match a, b with
  | SNull, SNull => true
  | SInt x, SInt y => x =? y
  | SReal x, SReal y => x =? y
  | SText x, SText y => (x =? y)%string
  | _, _ => false
  end.

(** What a fetched cell is in Python. *)
Definition py_of_sql (v : sqlval) : pyval :=
  match v with
  | SNull => PNone
  | SInt z => PInt z
  | SReal bits => PFloat bits
  | SText s => PStr s
  end.

Definition int64_max : Z := 9223372036854775807.
Definition int64_min : Z := -9223372036854775808.

Definition is_nan (bits : Z) : bool :=
  (Z.land (Z.shiftr bits 52) 2047 =? 2047) && negb (Z.land bits (2 ^ 52 - 1) =? 0).

(** Binding a Python value to a [?] placeholder. *)
Definition bind_param (v : pyval) : outcome sqlval :=
  match v with
  | PNone => Ret SNull
  | PBool b => Ret (SInt (if b then 1 else 0))
  | PInt z =>
      if (int64_min <=? z) && (z <=? int64_max) then Ret (SInt z)
      else Raise OverflowError
  | PFloat bits => Ret (if is_nan bits then SNull else SReal bits)
  | PStr s => Ret (SText s)
  | PList _ => Raise (SqliteError "Error binding parameter 1: type 'list' is not supported")
  | PDict _ => Raise (SqliteError "Error binding parameter 1: type 'dict' is not supported")
  end.

Definition in_int64 (z : Z) : bool := (int64_min <=? z) && (z <=? int64_max).

(** Binding a Python int. *)
Definition bind_int (z : Z) : outcome Z :=
  if in_int64 z then Ret z else Raise OverflowError.

(** A [None], int, float or str given for a placeholder: whether it can be
    bound, and the value SQLite receives. *)
Definition bindable (v : sqlval) : bool :=
  match v with
  | SInt z => in_int64 z
  | _ => true
  end.

Definition bound_value (v : sqlval) : sqlval :=
  match v with
  | SReal bits => if is_nan bits then SNull else v
  | _ => v
  end.

(** ** Column affinity *)

Inductive number : Type :=
| NInt (z : Z)
| NReal (bits : Z).

Definition sql_of_number (n : number) : sqlval :=
  match n with
  | NInt z => SInt z
  | NReal bits => SReal bits
  end.

(** The conversions of the SQLite engine that involve floating point or the
    reading of a text as a number: the text a REAL is rendered as; the number
    a text is stored as in a numeric column, when it is a well-formed
    literal that converts without loss; the REAL of an INTEGER; the INTEGER
    of a REAL that is one. *)
Record engine : Type := mk_engine {
  real_to_text : Z -> string;
  numeric_of_text : string -> option number;
  int_to_real : Z -> Z;
  real_to_int : Z -> option Z
}.

(** [str(n)] for an int, also the text SQLite renders an INTEGER as. *)
Definition str_of_int (n : Z) : string := NilZero.string_of_int (Z.to_int n).

(** VARCHAR and TEXT columns. *)
Definition text_affinity (G : engine) (v : sqlval) : sqlval :=
  match v with
  | SInt z => SText (str_of_int z)
  | SReal bits => SText (real_to_text G bits)
  | _ => v
  end.

(** TIMESTAMP and INTEGER columns. *)
Definition numeric_affinity (G : engine) (v : sqlval) : sqlval :=
  match v with
  | SText s =>
      match numeric_of_text G s with
      | Some n => sql_of_number n
      | None => v
      end
  | SReal bits =>
      match real_to_int G bits with
      | Some z => SInt z
      | None => v
      end
  | _ => v
  end.

(** REAL columns: as numeric ones, and an integer is kept as a REAL. *)
Definition real_affinity (G : engine) (v : sqlval) : sqlval :=
  match numeric_affinity G v with
  | SInt z => SReal (int_to_real G z)
  | x => x
  end.

(** ** The database file *)

Record user_row : Type := mk_user {
  u_id : Z;
  email : sqlval;
  mobile : sqlval;
  first_name : sqlval;
  middle_name : sqlval;
  last_name : sqlval;
  password : sqlval;
  basiq_id : sqlval
}.

(** [users] has an AUTOINCREMENT key: [user_seq] is its [sqlite_sequence]
    entry, the largest key ever issued. *)
Record users_table : Type := mk_users {
  user_rows : list user_row;
  user_seq : Z
}.

(** The thirteen provider columns of a transaction, over cells of type [V]:
    Python values after normalization, SQLite values in a DataFrame row that
    is cached. *)
Record txn (V : Type) : Type := mk_txn {
  type : V;
  id : V;
  status : V;
  description : V;
  amount : V;
  account : V;
  balance : V;
  direction : V;
  class : V;
  institution : V;
  postDate : V;
  subClass_title : V;
  subClass_code : V
}.
Arguments mk_txn {V}.
Arguments type {V}.
Arguments id {V}.
Arguments status {V}.
Arguments description {V}.
Arguments amount {V}.
Arguments account {V}.
Arguments balance {V}.
Arguments direction {V}.
Arguments class {V}.
Arguments institution {V}.
Arguments postDate {V}.
Arguments subClass_title {V}.
Arguments subClass_code {V}.

Definition txn_map {A B : Type} (f : A -> B) (r : txn A) : txn B :=
  mk_txn (f (type r)) (f (id r)) (f (status r)) (f (description r)) (f (amount r))
         (f (account r)) (f (balance r)) (f (direction r)) (f (class r))
         (f (institution r)) (f (postDate r)) (f (subClass_title r)) (f (subClass_code r)).

(** The cells of a row in the order the INSERT of [cache_transactions] passes
    them. *)
Definition cells {A : Type} (r : txn A) : list A :=
  [id r; type r; status r; description r; amount r; account r; balance r;
   direction r; class r; institution r; postDate r; subClass_title r; subClass_code r].

Record transaction_row : Type := mk_transaction {
  cols : txn sqlval;
  trans_u_id : Z
}.

(** A table that was never created is [None]. *)
Record database : Type := mk_db {
  users : option users_table;
  transactions : option (list transaction_row)
}.

Definition empty_file : database := mk_db None None.

Definition user_list (d : database) : list user_row :=
  match users d with Some t => user_rows t | None => [] end.

Definition transaction_list (d : database) : list transaction_row :=
  match transactions d with Some l => l | None => [] end.

(** The row that [WHERE u_id = ?] selects for the parameter [u].  The keys of
    the table are 64-bit integers: a parameter outside them selects no row
    (binding it raises before the table is read). *)
Definition find_user (u : Z) (rows : list user_row) : option user_row :=
  if in_int64 u then find (fun r => u_id r =? u) rows else None.

(** ** The outside world *)

Inductive event : Type :=
| CreateUserByDict (user_dict token : pyval)
| CreateAuthLink (basiq token : pyval)
| GetTransactionList (basiq limit filter token : pyval)
| WebbrowserOpen (link : pyval).

(** [respond tr e] is what the call [e] gives after the calls [tr]: for a
    provider call the JSON-decoded body of its reply ([json.loads] of the
    returned text), or the exception that the call or the decoding raises. *)
Record environment : Type := mk_env {
  respond : list event -> event -> outcome pyval;
  access_token : pyval;
  sqlite : engine
}.

Record world : Type := mk_world {
  db : database;
  trace : list event
}.

(** ** State and exceptions *)

Definition M (S A : Type) : Type := S -> outcome A * S.

Definition ret {S A} (a : A) : M S A := fun s => (Ret a, s).

Definition raise {S A} (e : exn) : M S A := fun s => (Raise e, s).

Definition bind {S A B} (m : M S A) (k : A -> M S B) : M S B :=
  fun s =>
    match m s with
    | (Ret a, s') => k a s'
    | (Raise e, s') => (Raise e, s')
    end.

Notation "x <- m ;; k" := (bind m (fun x => k))
  (at level 61, m at next level, right associativity).
Notation "m ;;; k" := (bind m (fun _ => k))
  (at level 61, right associativity).

Definition of_outcome {S A} (o : outcome A) : M S A := fun s => (o, s).

(** [for x in l: body x]. *)
Fixpoint for_each {S A} (l : list A) (body : A -> M S unit) : M S unit :=
  match l with
  | [] => ret tt
  | x :: l' => body x ;;; for_each l' body
  end.

(** [try: m  except sqlite3.Error as e: return "An error occurred: " + str(e)]. *)
Definition error_prefix : string := "An error occurred: ".

Definition except_sqlite {S} (m : M S pyval) : M S pyval :=
  fun s =>
    match m s with
    | (Raise (SqliteError msg), s') => (Ret (PStr (error_prefix ++ msg)%string), s')
    | r => r
    end.

(** ** Connections *)

(** The open connection of a [with] block: its view of the file, which holds
    the statements not yet committed, and its [foreign_keys] pragma. *)
Record connection : Type := mk_conn {
  working : database;
  foreign_keys : bool
}.

Definition session : Type := (connection * world)%type.

(** [with sqlite3.connect("dolfin_db.db") as conn: body]. *)
Definition with_connect {A} (body : M session A) : M world A :=
  fun w =>
    match body (mk_conn (db w) false, w) with
    | (Ret a, (c, w')) => (Ret a, mk_world (working c) (trace w'))
    | (Raise e, (c, w')) => (Raise e, w')
    end.

(** [conn.commit()]. *)
Definition commit : M session unit :=
  fun s => let '(c, w) := s in (Ret tt, (c, mk_world (working c) (trace w))).

(** [conn.execute("PRAGMA foreign_keys = ON;")]. *)
Definition pragma_foreign_keys_on : M session unit :=
  fun s => let '(c, w) := s in (Ret tt, (mk_conn (working c) true, w)).

(** A statement that reads the connection's view. *)
Definition query {A} (q : database -> outcome A) : M session A :=
  fun s => (q (working (fst s)), s).

(** A statement that writes it; a statement that fails changes nothing. *)
Definition execute {A} (stmt : bool -> database -> outcome (A * database)) : M session A :=
  fun s =>
    let '(c, w) := s in
    match stmt (foreign_keys c) (working c) with
    | Ret (a, d') => (Ret a, (mk_conn d' (foreign_keys c), w))
    | Raise e => (Raise e, s)
    end.

(** A call that leaves the process: logged, answered by the environment. *)
Definition external (E : environment) (e : event) : M world pyval :=
  fun w => (respond E (trace w) e, mk_world (db w) (trace w ++ [e])).

Definition in_session {A} (m : M world A) : M session A :=
  fun s =>
    let '(c, w) := s in
    match m w with
    | (r, w') => (r, (c, w'))
    end.

(** ** The statements the module executes

    Each takes the connection's [foreign_keys] pragma and its view of the
    file, and gives the new view or the [sqlite3.Error] raised. *)

Definition no_such_table (t : string) : exn :=
  SqliteError ("no such table: " ++ t)%string.

(** [CREATE TABLE IF NOT EXISTS users (u_id INTEGER PRIMARY KEY AUTOINCREMENT,
    .., basiq_id VARCHAR(255) DEFAULT NULL)]. *)
Definition create_users (fk : bool) (d : database) : outcome (unit * database) :=
  match users d with
  | Some _ => Ret (tt, d)
  | None => Ret (tt, mk_db (Some (mk_users [] 0)) (transactions d))
  end.

(** [CREATE TABLE IF NOT EXISTS transactions (id VARCHAR(255) PRIMARY KEY, ..,
    trans_u_id INTEGER NOT NULL, FOREIGN KEY (trans_u_id) REFERENCES users
    (u_id) ON DELETE CASCADE ON UPDATE CASCADE)]. *)
Definition create_transactions (fk : bool) (d : database) : outcome (unit * database) :=
  match transactions d with
  | Some _ => Ret (tt, d)
  | None => Ret (tt, mk_db (users d) (Some []))
  end.

Definition max_u_id (rows : list user_row) : Z :=
  fold_right (fun r m => Z.max (u_id r) m) 0 rows.

(** [INSERT INTO users (email, mobile, first_name, middle_name, last_name,
    password) VALUES (?, ?, ?, ?, ?, ?)]: the six values are bound and stored
    as VARCHAR columns store them; the key is one more than the largest ever
    issued, and [basiq_id] takes its default. *)
Definition insert_user (G : engine) (e m f mi l p : sqlval) (fk : bool) (d : database)
  : outcome (unit * database) :=
  match users d with
  | None => Raise (no_such_table "users")
  | Some t =>
      if forallb bindable [e; m; f; mi; l; p] then
        let top := Z.max (user_seq t) (max_u_id (user_rows t)) in
        if int64_max <=? top then Raise (SqliteError "database or disk is full")
        else
          let k := top + 1 in
          let varchar := fun v => text_affinity G (bound_value v) in
          Ret (tt, mk_db (Some (mk_users
                                  (user_rows t ++
                                   [mk_user k (varchar e) (varchar m) (varchar f) (varchar mi)
                                            (varchar l) (varchar p) SNull])
                                  k))
                         (transactions d))
      else Raise OverflowError
  end.

(** What [cursor.fetchone()] gives: a tuple of cells, or [None]. *)
Definition fetched : Type := option (list sqlval).

(** [if result:]. *)
Definition row_truthy (result : fetched) : bool :=
  match result with
  | Some (_ :: _) => true
  | _ => false
  end.

(** [result[i]]. *)
Definition row_item (result : fetched) (i : nat) : outcome sqlval :=
  match result with
  | Some t =>
      match nth_error t i with
      | Some v => Ret v
      | None => Raise (OtherError "IndexError")
      end
  | None => Raise TypeError
  end.

(** [SELECT basiq_id FROM users WHERE u_id = ?], then [fetchone()]. *)
Definition select_basiq_id (u : Z) (d : database) : outcome fetched :=
  match users d with
  | None => Raise (no_such_table "users")
  | Some t =>
      match bind_int u with
      | Raise e => Raise e
      | Ret k => Ret (option_map (fun r => [basiq_id r]) (find_user k (user_rows t)))
      end
  end.

(** [SELECT email, mobile, first_name, middle_name, last_name FROM users
    WHERE u_id = ?], then [fetchone()]. *)
Definition select_user_info (u : Z) (d : database) : outcome fetched :=
  match users d with
  | None => Raise (no_such_table "users")
  | Some t =>
      match bind_int u with
      | Raise e => Raise e
      | Ret k =>
          Ret (option_map
                 (fun r => [email r; mobile r; first_name r; middle_name r; last_name r])
                 (find_user k (user_rows t)))
      end
  end.

Definition set_basiq_id (v : sqlval) (r : user_row) : user_row :=
  mk_user (u_id r) (email r) (mobile r) (first_name r) (middle_name r)
          (last_name r) (password r) v.

(** [UPDATE users SET basiq_id = ? WHERE u_id = ?] with the parameters
    [(new_basiq_id, user_id)]; gives [cursor.rowcount]. *)
Definition update_basiq_id (G : engine) (new_basiq_id : pyval) (u : Z) (fk : bool)
    (d : database) : outcome (Z * database) :=
  match users d with
  | None => Raise (no_such_table "users")
  | Some t =>
      match bind_param new_basiq_id with
      | Raise e => Raise e
      | Ret v =>
          match bind_int u with
          | Raise e => Raise e
          | Ret k =>
              let hit := fun r => u_id r =? k in
              Ret (Z.of_nat (List.length (filter hit (user_rows t))),
                   mk_db (Some (mk_users
                                  (map (fun r => if hit r
                                                 then set_basiq_id (text_affinity G v) r
                                                 else r)
                                       (user_rows t))
                                  (user_seq t)))
                         (transactions d))
          end
      end
  end.

(** Binding the thirteen cells of a row: any int among them that does not
    fit raises [OverflowError]. *)
Definition bind_row (row : txn sqlval) : outcome (txn sqlval) :=
  if forallb bindable (cells row) then Ret (txn_map bound_value row)
  else Raise OverflowError.

(** A bound row as the columns of [transactions] store it: [amount] and
    [balance] are REAL, [postDate] is TIMESTAMP, the others VARCHAR or
    TEXT. *)
Definition stored_cols (G : engine) (b : txn sqlval) : txn sqlval :=
  mk_txn (text_affinity G (type b)) (text_affinity G (id b)) (text_affinity G (status b))
         (text_affinity G (description b)) (real_affinity G (amount b))
         (text_affinity G (account b)) (real_affinity G (balance b))
         (text_affinity G (direction b)) (text_affinity G (class b))
         (text_affinity G (institution b)) (numeric_affinity G (postDate b))
         (text_affinity G (subClass_title b)) (text_affinity G (subClass_code b)).

(** Whether the primary key rejects a bound id.  The id is compared as the
    VARCHAR column stores it, so the number 5 meets the text "5".  The key is
    not an integer key, so SQLite lets NULL in and never counts two NULLs as
    a conflict. *)
Definition id_taken (G : engine) (v : sqlval) (rows : list transaction_row) : bool :=
  match text_affinity G v with
  | SNull => false
  | key => existsb (fun t => sqlval_eqb (id (cols t)) key) rows
  end.

(** [INSERT INTO transactions (id, type, .., subClass_code, trans_u_id)
    VALUES (?, .. , ?)]. *)
Definition insert_transaction (G : engine) (row : txn sqlval) (u : Z) (fk : bool)
    (d : database) : outcome (unit * database) :=
  match transactions d with
  | None => Raise (no_such_table "transactions")
  | Some rows =>
      let go (known : Z -> bool) : outcome (unit * database) :=
        match bind_row row with
        | Raise e => Raise e
        | Ret b =>
            match bind_int u with
            | Raise e => Raise e
            | Ret k =>
                if id_taken G (id b) rows
                then Raise (SqliteError "UNIQUE constraint failed: transactions.id")
                else if known k
                then Ret (tt, mk_db (users d)
                                    (Some (rows ++ [mk_transaction (stored_cols G b) k])))
                else Raise (SqliteError "FOREIGN KEY constraint failed")
            end
        end in
      if fk then
        match users d with
        | None => Raise (no_such_table "main.users")
        | Some t => go (fun k => existsb (fun r => u_id r =? k) (user_rows t))
        end
      else go (fun _ => true)
  end.

(** [SELECT * FROM transactions WHERE trans_u_id = ?], run by
    [pd.read_sql_query], which raises its own error for whatever the
    execution raises. *)
Definition select_transactions (u : Z) (d : database) : outcome (list transaction_row) :=
  match transactions d with
  | None => Raise (OtherError "pandas.errors.DatabaseError")
  | Some rows =>
      if in_int64 u then Ret (filter (fun t => trans_u_id t =? u) rows)
      else Raise (OtherError "pandas.errors.DatabaseError")
  end.

(** [DELETE FROM transactions;]. *)
Definition delete_transactions (fk : bool) (d : database) : outcome (unit * database) :=
  match transactions d with
  | None => Raise (no_such_table "transactions")
  | Some _ => Ret (tt, mk_db (users d) (Some []))
  end.

(** Modelled from the spec: the module has no statement that deletes a user.
    This is [DELETE FROM users WHERE u_id = ?] under the schema that
    [init_dolfin_db] creates: with the [foreign_keys] pragma on, ON DELETE
    CASCADE removes the transactions whose [trans_u_id] is the deleted key.
    The key is bound like the parameters of the module's own statements. *)
Definition delete_from_users (u : Z) (fk : bool) (d : database)
  : outcome (unit * database) :=
  match users d with
  | None => Raise (no_such_table "users")
  | Some t =>
      match bind_int u with
      | Raise e => Raise e
      | Ret k =>
          let kept := filter (fun r => negb (u_id r =? k)) (user_rows t) in
          let owned_by_other := fun x => negb (trans_u_id x =? k) in
          Ret (tt, mk_db (Some (mk_users kept (user_seq t)))
                         (if fk then option_map (filter owned_by_other) (transactions d)
                          else transactions d))
      end
  end.

(** ** The operations of the module *)

Definition not_found : string := "No user found with the given ID.".

Definition user_inserted_message : string := "User inserted successfully into 'users' table.".

Definition basiq_updated_message (user_id : Z) : string :=
  ("basiq_id updated successfully for user ID " ++ str_of_int user_id)%string.
Arguments basiq_updated_message : simpl never.

Definition inserted_message : string := "Transactions successfully inserted.".

Definition cleared_message : string := "Transactions table cleared successfully.".

Definition init_dolfin_db : M world pyval :=
  except_sqlite
    (with_connect
       (pragma_foreign_keys_on ;;;
        execute create_users ;;;
        execute create_transactions ;;;
        ret (PStr "managed to init dolfin_db."))).

Definition register_user (E : environment)
    (email mobile first_name middle_name last_name password : sqlval) : M world pyval :=
  except_sqlite
    (with_connect
       (execute (insert_user (sqlite E) email mobile first_name middle_name last_name
                             password) ;;;
        commit ;;;
        ret (PStr user_inserted_message))).

Definition get_basiq_id (user_id : Z) : M world pyval :=
  except_sqlite
    (with_connect
       (result <- query (select_basiq_id user_id) ;;
        if row_truthy result then
          r0 <- of_outcome (row_item result 0) ;;
          ret (py_of_sql r0)
        else
          ret (PStr not_found))).

Definition get_user_info (user_id : Z) : M world pyval :=
  except_sqlite
    (with_connect
       (result <- query (select_user_info user_id) ;;
        if row_truthy result then
          r0 <- of_outcome (row_item result 0) ;;
          r1 <- of_outcome (row_item result 1) ;;
          r2 <- of_outcome (row_item result 2) ;;
          r3 <- of_outcome (row_item result 3) ;;
          r4 <- of_outcome (row_item result 4) ;;
          let user_info :=
            PDict [("email", py_of_sql r0);
                   ("mobile", py_of_sql r1);
                   ("firstName", py_of_sql r2);
                   ("middleName", py_of_sql r3);
                   ("lastName", py_of_sql r4)] in
          ret user_info
        else
          ret (PStr not_found))).

Definition register_basiq_id (E : environment) (user_id : Z) : M world pyval :=
  except_sqlite
    (user_info <- get_user_info user_id ;;
     reply <- external E (CreateUserByDict user_info (access_token E)) ;;
     new_basiq_id <- of_outcome (get_method reply "id") ;;
     with_connect
       (rowcount <- execute (update_basiq_id (sqlite E) new_basiq_id user_id) ;;
        if rowcount =? 0 then
          ret (PStr not_found)
        else
          commit ;;;
          ret (PStr (basiq_updated_message user_id)))).

Definition link_bank_account (E : environment) (user_id : Z) : M world pyval :=
  except_sqlite
    (with_connect
       (result <- query (select_basiq_id user_id) ;;
        if row_truthy result then
          r0 <- of_outcome (row_item result 0) ;;
          reply <- in_session (external E (CreateAuthLink (py_of_sql r0) (access_token E))) ;;
          links <- of_outcome (get_method reply "links") ;;
          link <- of_outcome (get_method links "public") ;;
          in_session (external E (WebbrowserOpen link)) ;;;
          ret PNone
        else
          ret (PStr not_found))).

(** The dict built in the loop of [request_transactions_df], its entries
    evaluated in the order they are written. *)
Definition normalize (transaction : pyval) : outcome (txn pyval) :=
  let sub (k : string) : outcome pyval :=
    match get_method transaction "subClass" with
    | Raise e => Raise e
    | Ret c =>
        if truthy c then
          match getitem transaction "subClass" with
          | Raise e => Raise e
          | Ret s => getitem s k
          end
        else Ret PNone
    end in
  match getitem transaction "type" with Raise e => Raise e | Ret v_type =>
  match getitem transaction "id" with Raise e => Raise e | Ret v_id =>
  match getitem transaction "status" with Raise e => Raise e | Ret v_status =>
  match getitem transaction "description" with Raise e => Raise e | Ret v_description =>
  match getitem transaction "amount" with Raise e => Raise e | Ret v_amount =>
  match getitem transaction "account" with Raise e => Raise e | Ret v_account =>
  match getitem transaction "balance" with Raise e => Raise e | Ret v_balance =>
  match getitem transaction "direction" with Raise e => Raise e | Ret v_direction =>
  match getitem transaction "class" with Raise e => Raise e | Ret v_class =>
  match getitem transaction "institution" with Raise e => Raise e | Ret v_institution =>
  match getitem transaction "postDate" with Raise e => Raise e | Ret v_postDate =>
  match sub "title" with Raise e => Raise e | Ret v_title =>
  match sub "code" with Raise e => Raise e | Ret v_code =>
  Ret (mk_txn v_type v_id v_status v_description v_amount v_account v_balance
              v_direction v_class v_institution v_postDate v_title v_code)
  end end end end end end end end end end end end end.

(** The loop itself: [transactions] grows by one dict per item. *)
Fixpoint normalize_all (items : list pyval) : outcome (list (txn pyval)) :=
  match items with
  | [] => Ret []
  | transaction :: rest =>
      match normalize transaction with
      | Raise e => Raise e
      | Ret t =>
          match normalize_all rest with
          | Raise e => Raise e
          | Ret ts => Ret (t :: ts)
          end
      end
  end.

Definition default_limit_para : pyval := PInt 500.
Definition default_filter_para : pyval := PStr "".

(** The DataFrame returned is the sequence of its rows. *)
Definition request_transactions_df (E : environment) (user_id : Z)
    (limit_para filter_para : pyval) : M world (list (txn pyval)) :=
  basiq <- get_basiq_id user_id ;;
  tran_data <- external E (GetTransactionList basiq limit_para filter_para (access_token E)) ;;
  transaction_list <- of_outcome (getitem tran_data "data") ;;
  items <- of_outcome (iter_values transaction_list) ;;
  of_outcome (normalize_all items).

Definition cache_transactions (E : environment) (user_id : Z) (tran_data : list (txn sqlval))
  : M world pyval :=
  except_sqlite
    (with_connect
       (pragma_foreign_keys_on ;;;
        for_each tran_data
          (fun row => execute (insert_transaction (sqlite E) row user_id))) ;;;
     ret (PStr inserted_message)).

(** [pd.read_sql_query] turns a failing query into its own error class, which
    the handler does not catch; had the handler an [sqlite3.Error] to catch,
    it would print and the function return [None]. *)
Definition fetch_transactions_by_user (user_id : Z) : M world (option (list transaction_row)) :=
  fun w =>
    match with_connect (rows <- query (select_transactions user_id) ;; ret (Some rows)) w with
    | (Raise (SqliteError msg), w') => (Ret None, w')
    | r => r
    end.

Definition clear_transactions : M world pyval :=
  except_sqlite
    (with_connect (execute delete_transactions) ;;;
     ret (PStr cleared_message)).

(** Modelled from the spec: deleting a user is not an operation of the
    module.  Section 3 of the specification has a user destroyed by explicit
    deletion that cascades to the transactions it owns, and section 6 has
    foreign-key enforcement enabled on the connection: one connection, the
    pragma, the DELETE, the commit on leaving the block. *)
Definition delete_user (user_id : Z) : M world pyval :=
  except_sqlite
    (with_connect
       (pragma_foreign_keys_on ;;;
        execute (delete_from_users user_id)) ;;;
     ret PNone).

(** ** What a caller can tell from a returned value *)

Inductive signal : Type :=
| Value
| NotFound
| StorageError.

Definition signal_of (v : pyval) : signal :=
  match v with
  | PStr s =>
      if (s =? not_found)%string then NotFound
      else if prefix error_prefix s then StorageError
      else Value
  | _ => Value
  end.

Definition run {A} (m : M world A) (w : world) : world := snd (m w).
Definition result {A} (m : M world A) (w : world) : outcome A := fst (m w).

(** What [get_basiq_id] hands to its caller. *)
Definition basiq_answer (u : Z) (d : database) : pyval :=
  match users d with
  | None => PStr (error_prefix ++ "no such table: users")%string
  | Some t =>
      match find_user u (user_rows t) with
      | None => PStr not_found
      | Some r => py_of_sql (basiq_id r)
      end
  end.

(** What [get_user_info] hands to its caller. *)
Definition user_info_answer (u : Z) (d : database) : pyval :=
  match users d with
  | None => PStr (error_prefix ++ "no such table: users")%string
  | Some t =>
      match find_user u (user_rows t) with
      | None => PStr not_found
      | Some r =>
          PDict [("email", py_of_sql (email r));
                 ("mobile", py_of_sql (mobile r));
                 ("firstName", py_of_sql (first_name r));
                 ("middleName", py_of_sql (middle_name r));
                 ("lastName", py_of_sql (last_name r))]
      end
  end.

(** A read of [users] by key hands its answer over unless the key cannot be
    bound; a missing table is reported before the key is looked at. *)
Definition answered (u : Z) (d : database) (v : pyval) : outcome pyval :=
  match users d with
  | None => Ret v
  | Some _ => if in_int64 u then Ret v else Raise OverflowError
  end.

(** ** An engine, providers and sample data *)

(** The REAL of an INTEGER, rounded to nearest, ties to even. *)
Definition real_of_int (z : Z) : Z :=
  if z =? 0 then 0
  else
    let a := Z.abs z in
    let e := Z.log2 a in
    let sig :=
      if e <=? 52 then a * 2 ^ (52 - e)
      else
        let sh := e - 52 in
        let q := a / 2 ^ sh in
        let r := a mod 2 ^ sh in
        let half := 2 ^ (sh - 1) in
        if (half <? r) || ((r =? half) && Z.odd q) then q + 1 else q in
    let e' := if sig =? 2 ^ 53 then e + 1 else e in
    let sig' := if sig =? 2 ^ 53 then 2 ^ 52 else sig in
    (if z <? 0 then 2 ^ 63 else 0) + (e' + 1023) * 2 ^ 52 + (sig' - 2 ^ 52).

(** The INTEGER of a REAL whose value is a 64-bit integer. *)
Definition int_of_real (bits : Z) : option Z :=
  let e := Z.land (Z.shiftr bits 52) 2047 in
  let m := Z.land bits (2 ^ 52 - 1) in
  let sign := if Z.testbit bits 63 then -1 else 1 in
  if e =? 0 then (if m =? 0 then Some 0 else None)
  else if e =? 2047 then None
  else
    let sig := 2 ^ 52 + m in
    let sh := e - 1075 in
    let v :=
      if 0 <=? sh then Some (sig * 2 ^ sh)
      else if sig mod 2 ^ (- sh) =? 0 then Some (sig / 2 ^ (- sh)) else None in
    match v with
    | Some a => if in_int64 (sign * a) then Some (sign * a) else None
    | None => None
    end.

(** An engine for the scenario.  Integers and REALs are converted into each
    other exactly; of the conversions between texts and REALs it has the
    literals the scenario uses, with the answers of SQLite. *)
Definition scenario_engine : engine :=
  mk_engine
    (fun bits =>
       if bits =? 13846598529327300608 then "-12.5"
       else if bits =? 4644979230516445184 then "356.5"
       else if bits =? 13842939354630062080 then "-7.0"
       else if bits =? 4644856085214134272 then "349.5"
       else if bits =? 4609434218613702656 then "1.5"
       else "")
    (fun s =>
       if (s =? "-12.50")%string then Some (NReal 13846598529327300608)
       else if (s =? "356.50")%string then Some (NReal 4644979230516445184)
       else if (s =? "-7.00")%string then Some (NInt (-7))
       else if (s =? "349.50")%string then Some (NReal 4644856085214134272)
       else None)
    real_of_int
    int_of_real.

(** A provider that replies to whatever it is asked, also about an account
    id of [None]. *)
Definition lenient : environment :=
  mk_env
    (fun _ e =>
       match e with
       | CreateUserByDict _ _ => Ret (PDict [("id", PStr "basiq-1")])
       | CreateAuthLink _ _ =>
           Ret (PDict [("links", PDict [("public", PStr "https://connect.basiq.io/consent")])])
       | GetTransactionList _ _ _ _ => Ret (PDict [("data", PList [])])
       | WebbrowserOpen _ => Ret (PBool true)
       end)
    (PStr "token")
    scenario_engine.

(** The scenario of section 8 of the specification. *)
Definition fresh : world := mk_world empty_file [].

Definition one_user : world :=
  run (register_user lenient (SText "a@x.com") (SText "000") (SText "A") (SText "")
                     (SText "B") (SText "h"))
      (run init_dolfin_db fresh).

Definition sample_fields : list (string * pyval) :=
  [("type", PStr "transaction"); ("id", PStr "tx-1"); ("status", PStr "posted");
   ("description", PStr "WOOLWORTHS 1234"); ("amount", PStr "-12.50");
   ("account", PStr "acc-9"); ("balance", PStr "356.50"); ("direction", PStr "debit");
   ("class", PStr "payment"); ("institution", PStr "AU00000");
   ("postDate", PStr "2023-08-01T00:00:00Z")].

Definition sample_without_subclass : pyval :=
  PDict (sample_fields ++ [("subClass", PNone)]).

Definition sample_with_subclass : pyval :=
  PDict (sample_fields ++
         [("subClass", PDict [("title", PStr "Groceries"); ("code", PStr "G1")])]).

Definition sample_row : txn sqlval :=
  mk_txn (SText "transaction") (SText "tx-1") (SText "posted") (SText "WOOLWORTHS 1234")
         (SText "-12.50") (SText "acc-9") (SText "356.50") (SText "debit")
         (SText "payment") (SText "AU00000") (SText "2023-08-01T00:00:00Z")
         (SText "Groceries") (SText "G1").

Definition other_row : txn sqlval :=
  mk_txn (SText "transaction") (SText "tx-2") (SText "posted") (SText "COLES 0042")
         (SText "-7.00") (SText "acc-9") (SText "349.50") (SText "debit")
         (SText "payment") (SText "AU00000") (SText "2023-08-02T00:00:00Z")
         SNull SNull.

(** [sample_row] and [other_row] as the table holds them for user 1. *)
Definition sample_stored : transaction_row :=
  mk_transaction
    (mk_txn (SText "transaction") (SText "tx-1") (SText "posted") (SText "WOOLWORTHS 1234")
            (SReal 13846598529327300608) (SText "acc-9") (SReal 4644979230516445184)
            (SText "debit") (SText "payment") (SText "AU00000")
            (SText "2023-08-01T00:00:00Z") (SText "Groceries") (SText "G1"))
    1.

Definition other_stored : transaction_row :=
  mk_transaction
    (mk_txn (SText "transaction") (SText "tx-2") (SText "posted") (SText "COLES 0042")
            (SReal 13842939354630062080) (SText "acc-9") (SReal 4644856085214134272)
            (SText "debit") (SText "payment") (SText "AU00000")
            (SText "2023-08-02T00:00:00Z") SNull SNull)
    1.

(** The least integer that does not fit 64 bits, a row that carries it as
    its amount, and rows whose ids are the number 5 and the text "5". *)
Definition too_big : Z := 9223372036854775808.




(** ** Notions the statements use *)

(** The statements of the loop of [cache_transactions], run one after the
    other on a view of the file with the pragma on. *)
Fixpoint insert_all (G : engine) (u : Z) (rows : list (txn sqlval)) (d : database)
  : outcome database :=
  match rows with
  | [] => Ret d
  | row :: rest =>
      match insert_transaction G row u true d with
      | Ret (_, d') => insert_all G u rest d'
      | Raise e => Raise e
      end
  end.

(** A row of the DataFrame as the table holds it for user [u], once bound
    and stored. *)
Definition stored_row (G : engine) (u : Z) (row : txn sqlval) : transaction_row :=
  mk_transaction (stored_cols G (txn_map bound_value row)) u.

Definition owned_by (G : engine) (u : Z) (rows : list (txn sqlval)) : list transaction_row :=
  map (stored_row G u) rows.

(** Whether the parameters of a batch for user [u] can be bound: the user id
    and every integer cell fit SQLite's 64-bit integers. *)
Definition binds (u : Z) (rows : list (txn sqlval)) : bool :=
  in_int64 u && forallb (fun row => forallb bindable (cells row)) rows.

(** The six arguments of [register_user] as VARCHAR columns hold them. *)
Definition varchar (G : engine) (v : sqlval) : sqlval := text_affinity G (bound_value v).



(** What becomes of the provider's decoded reply in [request_transactions_df]. *)
Definition frame_of_reply (reply : outcome pyval) : outcome (list (txn pyval)) :=
  match reply with
  | Raise e => Raise e
  | Ret tran_data =>
      match getitem tran_data "data" with
      | Raise e => Raise e
      | Ret transaction_list =>
          match iter_values transaction_list with
          | Raise e => Raise e
          | Ret items => normalize_all items
          end
      end
  end.

(** What [register_basiq_id] leaves in the file, given the value it bound. *)
Definition linked (G : engine) (v : sqlval) (u : Z) (d : database) : database :=
  match users d with
  | None => d
  | Some t =>
      mk_db (Some (mk_users
                     (map (fun r => if u_id r =? u then set_basiq_id (text_affinity G v) r
                                    else r)
                          (user_rows t))
                     (user_seq t)))
            (transactions d)
  end.

Inductive op : Type :=
| InitDolfinDb
| RegisterUser (email mobile first_name middle_name last_name password : sqlval)
| GetBasiqId (user_id : Z)
| GetUserInfo (user_id : Z)
| RegisterBasiqId (user_id : Z)
| LinkBankAccount (user_id : Z)
| RequestTransactionsDf (user_id : Z) (limit_para filter_para : pyval)
| CacheTransactions (user_id : Z) (tran_data : list (txn sqlval))
| FetchTransactionsByUser (user_id : Z)
| ClearTransactions.

Definition step (E : environment) (o : op) (w : world) : world :=
  match o with
  | InitDolfinDb => run init_dolfin_db w
  | RegisterUser e m f mi l p => run (register_user E e m f mi l p) w
  | GetBasiqId u => run (get_basiq_id u) w
  | GetUserInfo u => run (get_user_info u) w
  | RegisterBasiqId u => run (register_basiq_id E u) w
  | LinkBankAccount u => run (link_bank_account E u) w
  | RequestTransactionsDf u l f => run (request_transactions_df E u l f) w
  | CacheTransactions u rows => run (cache_transactions E u rows) w
  | FetchTransactionsByUser u => run (fetch_transactions_by_user u) w
  | ClearTransactions => run clear_transactions w
  end.

Definition writes_basiq_id (o : op) : bool :=
  match o with
  | RegisterBasiqId _ => true
  | _ => false
  end.

(** User 1 with two cached transactions. *)
Definition two_cached : world :=
  step lenient (CacheTransactions 1 [sample_row; other_row]) one_user.

(** Every transaction row has an owner among the user rows. *)
Definition refs_ok (us : list user_row) (ts : list transaction_row) : bool :=
  forallb (fun t => existsb (fun r => u_id r =? trans_u_id t) us) ts.

Definition references_ok (d : database) : bool :=
  refs_ok (user_list d) (transaction_list d).

(** Every owner recorded in [transactions] is a 64-bit integer. *)
Definition owners_in_range (d : database) : bool :=
  forallb (fun t => in_int64 (trans_u_id t)) (transaction_list d).

(** The cached transactions of a user. *)
Definition owned (u : Z) (d : database) : list transaction_row :=
  filter (fun t => trans_u_id t =? u) (transaction_list d).

(** The worlds the operations of the module, and the deletion of users, lead
    to from a file without tables. *)
Inductive reachable (E : environment) : world -> Prop :=
| reach_fresh : reachable E fresh
| reach_step (o : op) (w : world) : reachable E w -> reachable E (step E o w)
| reach_delete (u : Z) (w : world) : reachable E w -> reachable E (run (delete_user u) w).

(** The flat transaction of the specification (section 4.3) for a provider
    record: the eleven plain fields are the record's entries, unchanged; when
    the nested [subClass] is present its [title] and [code] are copied, when
    it is absent both are null. *)
Definition entry (k : string) (d : list (string * pyval)) : pyval :=
  match dict_lookup k d with
  | Some v => v
  | None => PNone
  end.

Definition flatten (d : list (string * pyval)) : txn pyval :=
  let sub := match dict_lookup "subClass" d with
             | Some (PDict s) => s
             | _ => []
             end in
  mk_txn (entry "type" d) (entry "id" d) (entry "status" d) (entry "description" d)
         (entry "amount" d) (entry "account" d) (entry "balance" d) (entry "direction" d)
         (entry "class" d) (entry "institution" d) (entry "postDate" d)
         (entry "title" sub) (entry "code" sub).

(** ** Further notions: keys, handlers, record shape *)

(** The key the next [register_user] issues. *)
Definition next_u_id (t : users_table) : Z :=
  Z.max (user_seq t) (max_u_id (user_rows t)) + 1.

Fixpoint distinct (l : list Z) : bool :=
  match l with
  | [] => true
  | k :: l' => negb (existsb (Z.eqb k) l') && distinct l'
  end.

(** The keys of [users] are pairwise distinct and none exceeds the counter of
    the AUTOINCREMENT column. *)
Definition keys_ok (d : database) : bool :=
  match users d with
  | None => true
  | Some t =>
      distinct (map u_id (user_rows t)) &&
      forallb (fun k => k <=? user_seq t) (map u_id (user_rows t))
  end.

(** What [except sqlite3.Error] makes of an outcome. *)
Definition caught (o : outcome pyval) : outcome pyval :=
  match o with
  | Raise (SqliteError msg) => Ret (PStr (error_prefix ++ msg)%string)
  | _ => o
  end.

(** The keys the dict literal of [request_transactions_df] subscripts, in
    the order it evaluates them. *)
Definition required_keys : list string :=
  ["type"; "id"; "status"; "description"; "amount"; "account"; "balance";
   "direction"; "class"; "institution"; "postDate"].

Definition init_message : string := "managed to init dolfin_db.".

Definition no_users_table : string := (error_prefix ++ "no such table: users")%string.

(** A provider that cannot be reached, and one whose replies carry nothing. *)
Definition offline : environment :=
  mk_env (fun _ _ => Raise (OtherError "requests.exceptions.ConnectionError")) (PStr "token")
         scenario_engine.

Definition empty_replies : environment :=
  mk_env (fun _ _ => Ret (PDict [])) (PStr "token") scenario_engine.

(** User 1 of the scenario, linked by the lenient provider. *)
Definition linked_user : world := run (register_basiq_id lenient 1) one_user.

(** The first key of [required_keys] that a record lacks. *)
Definition first_missing (d : list (string * pyval)) : option string :=
  find (fun k => match dict_lookup k d with Some _ => false | None => true end) required_keys.

(** [not transaction.get('subClass')]. *)
Definition subclass_falsy (d : list (string * pyval)) : bool :=
  match dict_lookup "subClass" d with
  | None => true
  | Some c => negb (truthy c)
  end.

(** A record of the provider: the eleven plain keys, and a [subClass] that
    is missing, null, or an object with [title] and [code]. *)
Definition provider_record (d : list (string * pyval)) : bool :=
  match first_missing d with
  | Some _ => false
  | None =>
      match dict_lookup "subClass" d with
      | None => true
      | Some PNone => true
      | Some (PDict s) =>
          match dict_lookup "title" s, dict_lookup "code" s with
          | Some _, Some _ => true
          | _, _ => false
          end
      | Some _ => false
      end
  end.

Definition error_record : pyval :=
  PDict [("type", PStr "error"); ("code", PStr "resource-not-found")].

(** A provider whose transaction list holds the two sample records. *)
Definition two_records : environment :=
  mk_env
    (fun _ e =>
       match e with
       | GetTransactionList _ _ _ _ =>
           Ret (PDict [("type", PStr "list");
                       ("data", PList [sample_with_subclass; sample_without_subclass])])
       | _ => Ret (PDict [])
       end)
    (PStr "token")
    scenario_engine.

(** The operations whose source has no statement that writes, and the ones
    whose source makes no call outside the process. *)
Definition reads_only (o : op) : bool :=
  match o with
  | GetBasiqId _ | GetUserInfo _ | LinkBankAccount _
  | RequestTransactionsDf _ _ _ | FetchTransactionsByUser _ => true
  | _ => false
  end.

Definition stays_local (o : op) : bool :=
  match o with
  | RegisterBasiqId _ | LinkBankAccount _ | RequestTransactionsDf _ _ _ => false
  | _ => true
  end.

(** A provider whose auth-link reply has a [links] object without [public]. *)
Definition no_public_link : environment :=
  mk_env
    (fun _ e =>
       match e with
       | CreateAuthLink _ _ => Ret (PDict [("links", PDict [("self", PStr "https://au-api.basiq.io")])])
       | _ => Ret (PBool true)
       end)
    (PStr "token")
    scenario_engine.

Definition no_transactions_table : string :=
  (error_prefix ++ "no such table: transactions")%string.

(** * Properties *)

Ltac run_m :=
  unfold result, run, except_sqlite, with_connect, bind, ret, raise, query, execute,
    commit, pragma_foreign_keys_on, of_outcome, in_session, external in *;
  simpl in *.

Lemma prefix_app (p s : string) : prefix p (p ++ s)%string = true.
Proof.
  induction p as [|c p IH]; simpl.
  - destruct s; reflexivity.
  - destruct (Ascii.ascii_dec c c) as [_|n]; [exact IH | contradiction].
Qed.

Lemma signal_of_error (msg : string) :
  signal_of (PStr (error_prefix ++ msg)%string) = StorageError.
Proof.
  unfold signal_of. rewrite prefix_app.
  unfold error_prefix, not_found. reflexivity.
Qed.

Lemma find_user_in_range (u : Z) (rows : list user_row) (r : user_row) :
  find_user u rows = Some r -> in_int64 u = true.
Proof.
  unfold find_user. destruct (in_int64 u); [reflexivity | discriminate].
Qed.

Lemma get_user_info_spec (u : Z) (w : world) :
  get_user_info u w = (answered u (db w) (user_info_answer u (db w)), w).
Proof.
  unfold get_user_info, select_user_info, user_info_answer, answered, bind_int. run_m.
  destruct w as [d tr]; simpl.
  destruct (users d) as [t|]; simpl; [|reflexivity].
  destruct (in_int64 u); simpl; [|reflexivity].
  destruct (find_user u (user_rows t)); reflexivity.
Qed.

Lemma get_basiq_id_spec (u : Z) (w : world) :
  get_basiq_id u w = (answered u (db w) (basiq_answer u (db w)), w).
Proof.
  unfold get_basiq_id, select_basiq_id, basiq_answer, answered, bind_int. run_m.
  destruct w as [d tr]; simpl.
  destruct (users d) as [t|]; simpl; [|reflexivity].
  destruct (in_int64 u); simpl; [|reflexivity].
  destruct (find_user u (user_rows t)); reflexivity.
Qed.

(** ** The scenario, run *)

Example scenario_link :
  result (register_basiq_id lenient 1) one_user =
    Ret (PStr "basiq_id updated successfully for user ID 1") /\
  result (get_basiq_id 1) (run (register_basiq_id lenient 1) one_user) = Ret (PStr "basiq-1").
Proof. split; reflexivity. Qed.

Example scenario_unknown_owner :
  result (cache_transactions lenient 7 [sample_row]) one_user =
    Ret (PStr "An error occurred: FOREIGN KEY constraint failed").
Proof. reflexivity. Qed.

Example scenario_before_init :
  result (cache_transactions lenient 1 [sample_row]) fresh =
    Ret (PStr "An error occurred: no such table: transactions").
Proof. reflexivity. Qed.

Example scenario_stored :
  transaction_list (db two_cached) = [sample_stored; other_stored].
Proof. reflexivity. Qed.

Example normalize_missing_key :
  normalize (PDict [("type", PStr "error")]) = Raise (KeyError "id").
Proof. reflexivity. Qed.

Example normalize_empty_subclass :
  normalize (PDict (sample_fields ++ [("subClass", PDict [])])) =
  normalize sample_without_subclass.
Proof. reflexivity. Qed.

(** ** Reading a user *)

(** C8, as stated, fails.  On the store of the scenario, whose tables exist,
    no user row has the id 2^63, and [get_user_info] of it does not return
    the not-found message: binding the id raises [OverflowError], which the
    handler for [sqlite3.Error] does not catch. *)
Lemma get_user_info_out_of_range_counterexample :
  users (db one_user) <> None /\
  forallb (fun r => negb (u_id r =? too_big)) (user_list (db one_user)) = true /\
  result (get_user_info too_big) one_user = Raise OverflowError /\
  result (get_user_info too_big) one_user <> Ret (PStr not_found).
Proof.
  split; [discriminate|]. split; [reflexivity|]. split; [reflexivity|].
  vm_compute. discriminate.
Qed.

(** C8, amended (not-found distinction).  On a store whose [users] table
    exists, [get_user_info] answers an id within SQLite's 64-bit integers
    that no row carries with the not-found message, which a caller tells
    apart from a storage failure; it answers an id that a row carries with
    the dict of exactly the five profile entries email, mobile, firstName,
    middleName, lastName, in that order; for an id outside the 64-bit
    integers it raises [OverflowError]; in every case it leaves the store as
    it was. *)
Theorem get_user_info_not_found_distinct (u : Z) (w : world) (t : users_table)
    (Hstore : users (db w) = Some t) :
  (in_int64 u = true -> find_user u (user_rows t) = None ->
     exists v, result (get_user_info u) w = Ret v /\
               signal_of v = NotFound /\ signal_of v <> StorageError) /\
  (forall r, find_user u (user_rows t) = Some r ->
     result (get_user_info u) w =
       Ret (PDict [("email", py_of_sql (email r));
                   ("mobile", py_of_sql (mobile r));
                   ("firstName", py_of_sql (first_name r));
                   ("middleName", py_of_sql (middle_name r));
                   ("lastName", py_of_sql (last_name r))])) /\
  (in_int64 u = false -> result (get_user_info u) w = Raise OverflowError) /\
  run (get_user_info u) w = w.
Proof.
  unfold result, run. rewrite get_user_info_spec.
  unfold user_info_answer, answered. rewrite Hstore. simpl.
  split; [|split; [|split]].
  - intros Hrange Hnone. rewrite Hrange, Hnone. exists (PStr not_found).
    split; [reflexivity | split; [reflexivity | vm_compute; discriminate]].
  - intros r Hsome. rewrite (find_user_in_range _ _ _ Hsome), Hsome. reflexivity.
  - intros Hrange. rewrite Hrange. reflexivity.
  - reflexivity.
Qed.

Lemma get_user_info_not_found_distinct_witness :
  users (db one_user) = Some (mk_users (user_list (db one_user)) 1) /\
  (exists v, result (get_user_info 2) one_user = Ret v /\
             signal_of v = NotFound /\ signal_of v <> StorageError) /\
  result (get_user_info 1) one_user =
    Ret (PDict [("email", PStr "a@x.com"); ("mobile", PStr "000");
                ("firstName", PStr "A"); ("middleName", PStr "");
                ("lastName", PStr "B")]) /\
  result (get_user_info too_big) one_user = Raise OverflowError.
Proof.
  split; [reflexivity|].
  destruct (get_user_info_not_found_distinct 2 one_user _ eq_refl) as (Habsent & _ & _ & _).
  destruct (get_user_info_not_found_distinct 1 one_user _ eq_refl) as (_ & Hpresent & _ & _).
  destruct (get_user_info_not_found_distinct too_big one_user _ eq_refl) as (_ & _ & Hbig & _).
  split; [|split].
  - apply Habsent; reflexivity.
  - apply (Hpresent (mk_user 1 (SText "a@x.com") (SText "000") (SText "A") (SText "")
                             (SText "B") (SText "h") SNull)).
    reflexivity.
  - apply Hbig. reflexivity.
Defined.

(** C6, as stated, fails.  User 1 of the scenario is registered and never
    linked, so its [basiq_id] is NULL; [get_basiq_id 1] hands back the raw
    [None], which is not the not-found message. *)
Lemma get_basiq_id_unlinked_counterexample :
  (exists r, find_user 1 (user_list (db one_user)) = Some r /\ basiq_id r = SNull) /\
  result (get_basiq_id 1) one_user = Ret PNone /\
  signal_of PNone <> NotFound.
Proof.
  split; [|split].
  - eexists. split; reflexivity.
  - reflexivity.
  - discriminate.
Qed.

(** C6, amended.  For an existing user whose [basiq_id] is still NULL,
    [get_basiq_id] returns the raw null value [None]: neither the not-found
    message nor a storage failure.  The not-found message is what an id
    within SQLite's 64-bit integers without a user row gets. *)
Theorem get_basiq_id_unlinked_returns_none (u : Z) (w : world) (t : users_table)
    (Hstore : users (db w) = Some t) :
  (forall r, find_user u (user_rows t) = Some r -> basiq_id r = SNull ->
     result (get_basiq_id u) w = Ret PNone /\
     signal_of PNone <> NotFound /\ signal_of PNone <> StorageError) /\
  (in_int64 u = true -> find_user u (user_rows t) = None ->
     result (get_basiq_id u) w = Ret (PStr not_found)).
Proof.
  unfold result. rewrite get_basiq_id_spec.
  unfold basiq_answer, answered. rewrite Hstore. simpl. split.
  - intros r Hsome Hnull. rewrite (find_user_in_range _ _ _ Hsome), Hsome, Hnull.
    repeat split; discriminate.
  - intros Hrange Hnone. rewrite Hrange, Hnone. reflexivity.
Qed.

Lemma get_basiq_id_unlinked_returns_none_witness :
  users (db one_user) = Some (mk_users (user_list (db one_user)) 1) /\
  result (get_basiq_id 1) one_user = Ret PNone /\
  result (get_basiq_id 2) one_user = Ret (PStr not_found).
Proof.
  split; [reflexivity|].
  destruct (get_basiq_id_unlinked_returns_none 1 one_user _ eq_refl) as (Hnull & _).
  destruct (get_basiq_id_unlinked_returns_none 2 one_user _ eq_refl) as (_ & Habsent).
  split.
  - apply (Hnull (mk_user 1 (SText "a@x.com") (SText "000") (SText "A") (SText "")
                          (SText "B") (SText "h") SNull)); reflexivity.
  - apply Habsent; reflexivity.
Defined.

(** ** Clearing the cache *)

Lemma clear_transactions_spec (w : world) :
  clear_transactions w =
  match transactions (db w) with
  | None => (Ret (PStr (error_prefix ++ "no such table: transactions")%string), w)
  | Some _ =>
      (Ret (PStr cleared_message),
       mk_world (mk_db (users (db w)) (Some [])) (trace w))
  end.
Proof.
  unfold clear_transactions, delete_transactions. run_m.
  destruct w as [d tr]; simpl.
  destruct (transactions d); reflexivity.
Qed.

(** C10 (frame of the bulk clear).  [clear_transactions] takes no user id and
    tests nothing: afterwards the [transactions] table holds no row of any
    user, and the [users] table, every [basiq_id] in it included, is what it
    was.  No call leaves the process. *)
Theorem clear_transactions_frame (w : world) :
  transaction_list (db (run clear_transactions w)) = [] /\
  transactions (db (run clear_transactions w)) =
    option_map (fun _ => []) (transactions (db w)) /\
  users (db (run clear_transactions w)) = users (db w) /\
  trace (run clear_transactions w) = trace w.
Proof.
  unfold run, transaction_list. rewrite clear_transactions_spec.
  destruct (transactions (db w)) eqn:Ht; simpl; rewrite ?Ht; auto.
Qed.

(** ** The provider *)

Lemma request_transactions_df_spec (E : environment) (u : Z) (l f : pyval) (w : world) :
  request_transactions_df E u l f w =
  match answered u (db w) (basiq_answer u (db w)) with
  | Raise e => (Raise e, w)
  | Ret basiq =>
      (frame_of_reply
         (respond E (trace w) (GetTransactionList basiq l f (access_token E))),
       mk_world (db w) (trace w ++ [GetTransactionList basiq l f (access_token E)]))
  end.
Proof.
  unfold request_transactions_df, bind. rewrite get_basiq_id_spec.
  destruct (answered u (db w) (basiq_answer u (db w))) as [basiq|e]; [|reflexivity].
  unfold frame_of_reply, external, of_outcome.
  destruct (respond E _ _) as [reply|e]; [|reflexivity].
  destruct (getitem reply "data") as [tl|e]; [|reflexivity].
  destruct (iter_values tl); reflexivity.
Qed.

(** ** Normalization *)

Lemma normalize_flatten (d : list (string * pyval)) :
  provider_record d = true -> normalize (PDict d) = Ret (flatten d).
Proof.
  unfold provider_record, first_missing, required_keys, normalize, getitem, get_method,
    flatten, entry.
  simpl.
  destruct (dict_lookup "type" d); [|discriminate].
  destruct (dict_lookup "id" d); [|discriminate].
  destruct (dict_lookup "status" d); [|discriminate].
  destruct (dict_lookup "description" d); [|discriminate].
  destruct (dict_lookup "amount" d); [|discriminate].
  destruct (dict_lookup "account" d); [|discriminate].
  destruct (dict_lookup "balance" d); [|discriminate].
  destruct (dict_lookup "direction" d); [|discriminate].
  destruct (dict_lookup "class" d); [|discriminate].
  destruct (dict_lookup "institution" d); [|discriminate].
  destruct (dict_lookup "postDate" d); [|discriminate].
  simpl.
  destruct (dict_lookup "subClass" d) as [c|]; [|reflexivity].
  destruct c as [| | | | | |s]; try discriminate; [reflexivity|].
  destruct (dict_lookup "title" s) eqn:Htitle; [|discriminate].
  destruct (dict_lookup "code" s) eqn:Hcode; [|discriminate].
  intros _.
  assert (Htruthy : truthy (PDict s) = true) by (destruct s; [discriminate Htitle|reflexivity]).
  rewrite Htruthy. reflexivity.
Qed.

Lemma normalize_all_flatten (records : list (list (string * pyval))) :
  forallb provider_record records = true ->
  normalize_all (map PDict records) = Ret (map flatten records).
Proof.
  induction records as [|d records IH]; simpl; [reflexivity|].
  intros H. apply andb_true_iff in H as (Hd & Hrest).
  rewrite (normalize_flatten d Hd), (IH Hrest). reflexivity.
Qed.

(** C4 (normalization correctness).  Whenever [get_basiq_id] returns and the
    provider replies with a [data] list of records, each with the eleven
    plain keys and a [subClass] that is absent, null or an object with
    [title] and [code], [request_transactions_df] returns one row per
    record, in the provider's order, and each row is the flat transaction of
    its record: [subClass_title] and [subClass_code] are both null when
    [subClass] is absent and are the object's [title] and [code] when it is
    present, and the eleven plain fields are the record's entries, copied
    unchanged. *)
Theorem request_transactions_df_normalizes (E : environment) (u : Z) (l f : pyval) (w : world)
    (basiq : pyval) (reply : list (string * pyval)) (records : list (list (string * pyval)))
    (Hbasiq : result (get_basiq_id u) w = Ret basiq)
    (Hreply : respond E (trace w) (GetTransactionList basiq l f (access_token E))
              = Ret (PDict reply))
    (Hdata : dict_lookup "data" reply = Some (PList (map PDict records)))
    (Hrecords : forallb provider_record records = true) :
  result (request_transactions_df E u l f) w = Ret (map flatten records) /\
  forall d, In d records ->
    (dict_lookup "subClass" d = None \/ dict_lookup "subClass" d = Some PNone ->
       subClass_title (flatten d) = PNone /\ subClass_code (flatten d) = PNone) /\
    (forall s title code,
       dict_lookup "subClass" d = Some (PDict s) ->
       dict_lookup "title" s = Some title -> dict_lookup "code" s = Some code ->
       subClass_title (flatten d) = title /\ subClass_code (flatten d) = code) /\
    dict_lookup "type" d = Some (type (flatten d)) /\
    dict_lookup "id" d = Some (id (flatten d)) /\
    dict_lookup "status" d = Some (status (flatten d)) /\
    dict_lookup "description" d = Some (description (flatten d)) /\
    dict_lookup "amount" d = Some (amount (flatten d)) /\
    dict_lookup "account" d = Some (account (flatten d)) /\
    dict_lookup "balance" d = Some (balance (flatten d)) /\
    dict_lookup "direction" d = Some (direction (flatten d)) /\
    dict_lookup "class" d = Some (class (flatten d)) /\
    dict_lookup "institution" d = Some (institution (flatten d)) /\
    dict_lookup "postDate" d = Some (postDate (flatten d)).
Proof.
  split.
  - unfold result in *. rewrite request_transactions_df_spec.
    rewrite get_basiq_id_spec in Hbasiq. simpl in Hbasiq. rewrite Hbasiq.
    simpl. rewrite Hreply. simpl. rewrite Hdata. simpl.
    apply normalize_all_flatten. exact Hrecords.
  - intros d Hin.
    assert (Hd : provider_record d = true).
    { rewrite forallb_forall in Hrecords. apply Hrecords. exact Hin. }
    clear - Hd. unfold provider_record, first_missing, required_keys in Hd. simpl in Hd.
    unfold flatten, entry. simpl.
    destruct (dict_lookup "type" d); [|discriminate].
    destruct (dict_lookup "id" d); [|discriminate].
    destruct (dict_lookup "status" d); [|discriminate].
    destruct (dict_lookup "description" d); [|discriminate].
    destruct (dict_lookup "amount" d); [|discriminate].
    destruct (dict_lookup "account" d); [|discriminate].
    destruct (dict_lookup "balance" d); [|discriminate].
    destruct (dict_lookup "direction" d); [|discriminate].
    destruct (dict_lookup "class" d); [|discriminate].
    destruct (dict_lookup "institution" d); [|discriminate].
    destruct (dict_lookup "postDate" d); [|discriminate].
    split; [|split; [|repeat split]].
    + intros [H | H]; rewrite H; auto.
    + intros s title code Hs Htitle Hcode. rewrite Hs, Htitle, Hcode. auto.
Qed.

Lemma request_transactions_df_normalizes_witness :
  result (get_basiq_id 1) linked_user = Ret (PStr "basiq-1") /\
  forallb provider_record
    [sample_fields ++ [("subClass", PDict [("title", PStr "Groceries"); ("code", PStr "G1")])];
     sample_fields ++ [("subClass", PNone)]] = true /\
  result (request_transactions_df two_records 1 default_limit_para default_filter_para)
         linked_user =
    Ret [mk_txn (PStr "transaction") (PStr "tx-1") (PStr "posted") (PStr "WOOLWORTHS 1234")
                (PStr "-12.50") (PStr "acc-9") (PStr "356.50") (PStr "debit")
                (PStr "payment") (PStr "AU00000") (PStr "2023-08-01T00:00:00Z")
                (PStr "Groceries") (PStr "G1");
         mk_txn (PStr "transaction") (PStr "tx-1") (PStr "posted") (PStr "WOOLWORTHS 1234")
                (PStr "-12.50") (PStr "acc-9") (PStr "356.50") (PStr "debit")
                (PStr "payment") (PStr "AU00000") (PStr "2023-08-01T00:00:00Z")
                PNone PNone].
Proof.
  split; [reflexivity|]. split; [reflexivity|].
  exact (proj1 (request_transactions_df_normalizes two_records 1 default_limit_para
                  default_filter_para linked_user (PStr "basiq-1")
                  [("type", PStr "list");
                   ("data", PList [sample_with_subclass; sample_without_subclass])]
                  [sample_fields ++
                   [("subClass", PDict [("title", PStr "Groceries"); ("code", PStr "G1")])];
                   sample_fields ++ [("subClass", PNone)]]
                  eq_refl eq_refl eq_refl eq_refl)).
Defined.

(** ** The link precondition *)

(** C2, as stated, fails.  User 1 of the scenario has a NULL [basiq_id];
    [request_transactions_df] for it does not fail and does call the
    provider's transaction list, with [None] as the account. *)
Lemma request_transactions_df_unlinked_counterexample :
  (exists r, find_user 1 (user_list (db one_user)) = Some r /\ basiq_id r = SNull) /\
  result (request_transactions_df lenient 1 default_limit_para default_filter_para) one_user =
    Ret [] /\
  trace (run (request_transactions_df lenient 1 default_limit_para default_filter_para) one_user) =
    [GetTransactionList PNone (PInt 500) (PStr "") (PStr "token")] /\
  trace (run (request_transactions_df lenient 1 default_limit_para default_filter_para) one_user)
    <> trace one_user.
Proof.
  split; [eexists; split; reflexivity|].
  split; [reflexivity|]. split; [reflexivity|].
  vm_compute. discriminate.
Qed.

(** C2, amended.  For every existing user whose [basiq_id] is NULL,
    [request_transactions_df] makes no link check: it calls the provider's
    transaction list exactly once, with [None] as the account id together with
    the limit, the filter and the token; it returns or raises what the
    normalization of the provider's reply gives, and leaves the store as it
    was. *)
Theorem request_transactions_df_unlinked (E : environment) (u : Z) (l f : pyval) (w : world)
    (t : users_table) (r : user_row)
    (Hstore : users (db w) = Some t)
    (Huser : find_user u (user_rows t) = Some r)
    (Hnull : basiq_id r = SNull) :
  trace (run (request_transactions_df E u l f) w) =
    trace w ++ [GetTransactionList PNone l f (access_token E)] /\
  result (request_transactions_df E u l f) w =
    frame_of_reply (respond E (trace w) (GetTransactionList PNone l f (access_token E))) /\
  db (run (request_transactions_df E u l f) w) = db w.
Proof.
  unfold result, run. rewrite request_transactions_df_spec.
  unfold basiq_answer, answered.
  rewrite Hstore, (find_user_in_range _ _ _ Huser), Huser, Hnull. simpl. auto.
Qed.

Lemma request_transactions_df_unlinked_witness :
  users (db one_user) = Some (mk_users (user_list (db one_user)) 1) /\
  trace (run (request_transactions_df lenient 1 default_limit_para default_filter_para) one_user) =
    trace one_user ++ [GetTransactionList PNone default_limit_para default_filter_para
                         (access_token lenient)].
Proof.
  split; [reflexivity|].
  exact (proj1 (request_transactions_df_unlinked lenient 1 default_limit_para default_filter_para
                  one_user (mk_users (user_list (db one_user)) 1)
                  (mk_user 1 (SText "a@x.com") (SText "000") (SText "A") (SText "")
                           (SText "B") (SText "h") SNull)
                  eq_refl eq_refl eq_refl)).
Defined.

(** ** More on normalization *)

(** X13.  What a normalized transaction is made of.  When [normalize]
    returns, the record was an object; each of the eleven plain fields of
    the result is the record's entry under the same key; and the two
    subclass fields are either both [None], the record's [subClass] being
    absent or falsy, or the [title] and [code] entries of the record's
    [subClass] object.  Entries under other keys play no part. *)
Theorem normalize_sound (v : pyval) (t : txn pyval) (Hnorm : normalize v = Ret t) :
  exists d,
    v = PDict d /\
    dict_lookup "type" d = Some (type t) /\
    dict_lookup "id" d = Some (id t) /\
    dict_lookup "status" d = Some (status t) /\
    dict_lookup "description" d = Some (description t) /\
    dict_lookup "amount" d = Some (amount t) /\
    dict_lookup "account" d = Some (account t) /\
    dict_lookup "balance" d = Some (balance t) /\
    dict_lookup "direction" d = Some (direction t) /\
    dict_lookup "class" d = Some (class t) /\
    dict_lookup "institution" d = Some (institution t) /\
    dict_lookup "postDate" d = Some (postDate t) /\
    ((subclass_falsy d = true /\ subClass_title t = PNone /\ subClass_code t = PNone) \/
     (exists sub,
        dict_lookup "subClass" d = Some (PDict sub) /\
        dict_lookup "title" sub = Some (subClass_title t) /\
        dict_lookup "code" sub = Some (subClass_code t))).
Proof.
  destruct v as [| | | | | |d]; try discriminate Hnorm.
  exists d. split; [reflexivity|].
  unfold normalize, getitem, get_method, subclass_falsy in *.
  destruct (dict_lookup "type" d); [|discriminate].
  destruct (dict_lookup "id" d); [|discriminate].
  destruct (dict_lookup "status" d); [|discriminate].
  destruct (dict_lookup "description" d); [|discriminate].
  destruct (dict_lookup "amount" d); [|discriminate].
  destruct (dict_lookup "account" d); [|discriminate].
  destruct (dict_lookup "balance" d); [|discriminate].
  destruct (dict_lookup "direction" d); [|discriminate].
  destruct (dict_lookup "class" d); [|discriminate].
  destruct (dict_lookup "institution" d); [|discriminate].
  destruct (dict_lookup "postDate" d); [|discriminate].
  destruct (dict_lookup "subClass" d) as [c|].
  - destruct (truthy c) eqn:Hc.
    + destruct c as [| | | | | |sub]; simpl in Hnorm; try discriminate Hnorm.
      destruct (dict_lookup "title" sub) eqn:Htitle; [|discriminate].
      destruct (dict_lookup "code" sub) eqn:Hcode; [|discriminate].
      inversion Hnorm; subst; simpl. repeat (split; [reflexivity|]).
      right. exists sub. auto.
    + inversion Hnorm; subst; simpl. repeat (split; [reflexivity|]). left. auto.
  - simpl in Hnorm. inversion Hnorm; subst; simpl.
    repeat (split; [reflexivity|]). left. auto.
Qed.

Lemma normalize_sound_witness :
  normalize sample_with_subclass =
    Ret (mk_txn (PStr "transaction") (PStr "tx-1") (PStr "posted") (PStr "WOOLWORTHS 1234")
                (PStr "-12.50") (PStr "acc-9") (PStr "356.50") (PStr "debit")
                (PStr "payment") (PStr "AU00000") (PStr "2023-08-01T00:00:00Z")
                (PStr "Groceries") (PStr "G1")) /\
  exists d, sample_with_subclass = PDict d /\ dict_lookup "id" d = Some (PStr "tx-1").
Proof.
  split; [reflexivity|].
  destruct (normalize_sound sample_with_subclass _ eq_refl) as (d & Hd & _ & Hid & _).
  exists d. split; [exact Hd | exact Hid].
Defined.

(** X14.  Records that cannot be normalized.  A record that is not an object
    raises [TypeError]; an object that lacks one of the eleven plain keys
    raises [KeyError] for the first one missing, in the order the dict
    literal is written; and with all eleven present it raises only through
    its [subClass]: [TypeError] when that is truthy but not an object,
    [KeyError] for [title] or [code] when the object lacks it. *)
Theorem normalize_errors (d : list (string * pyval)) :
  (forall v, (forall d', v <> PDict d') -> normalize v = Raise TypeError) /\
  (forall k, first_missing d = Some k -> normalize (PDict d) = Raise (KeyError k)) /\
  (first_missing d = None ->
   forall c, dict_lookup "subClass" d = Some c -> truthy c = true ->
     ((forall sub, c <> PDict sub) -> normalize (PDict d) = Raise TypeError) /\
     (forall sub, c = PDict sub -> dict_lookup "title" sub = None ->
        normalize (PDict d) = Raise (KeyError "title")) /\
     (forall sub, c = PDict sub -> dict_lookup "title" sub <> None ->
        dict_lookup "code" sub = None ->
        normalize (PDict d) = Raise (KeyError "code"))).
Proof.
  split; [|split].
  - intros v Hv. destruct v; try reflexivity. exfalso. eapply Hv. reflexivity.
  - unfold first_missing, required_keys, normalize, getitem. simpl. intros k.
    destruct (dict_lookup "type" d); [|intros H; inversion H; reflexivity].
    destruct (dict_lookup "id" d); [|intros H; inversion H; reflexivity].
    destruct (dict_lookup "status" d); [|intros H; inversion H; reflexivity].
    destruct (dict_lookup "description" d); [|intros H; inversion H; reflexivity].
    destruct (dict_lookup "amount" d); [|intros H; inversion H; reflexivity].
    destruct (dict_lookup "account" d); [|intros H; inversion H; reflexivity].
    destruct (dict_lookup "balance" d); [|intros H; inversion H; reflexivity].
    destruct (dict_lookup "direction" d); [|intros H; inversion H; reflexivity].
    destruct (dict_lookup "class" d); [|intros H; inversion H; reflexivity].
    destruct (dict_lookup "institution" d); [|intros H; inversion H; reflexivity].
    destruct (dict_lookup "postDate" d); [|intros H; inversion H; reflexivity].
    discriminate.
  - unfold first_missing, required_keys, normalize, getitem, get_method. simpl.
    destruct (dict_lookup "type" d); [|discriminate].
    destruct (dict_lookup "id" d); [|discriminate].
    destruct (dict_lookup "status" d); [|discriminate].
    destruct (dict_lookup "description" d); [|discriminate].
    destruct (dict_lookup "amount" d); [|discriminate].
    destruct (dict_lookup "account" d); [|discriminate].
    destruct (dict_lookup "balance" d); [|discriminate].
    destruct (dict_lookup "direction" d); [|discriminate].
    destruct (dict_lookup "class" d); [|discriminate].
    destruct (dict_lookup "institution" d); [|discriminate].
    destruct (dict_lookup "postDate" d); [|discriminate].
    intros _ c Hsub Hc. rewrite Hsub, Hc. split; [|split].
    + intros Hshape. destruct c; try reflexivity. exfalso. eapply Hshape. reflexivity.
    + intros sub -> Htitle. rewrite Htitle. reflexivity.
    + intros sub -> Htitle Hcode.
      destruct (dict_lookup "title" sub); [|contradiction]. rewrite Hcode. reflexivity.
Qed.

Lemma normalize_errors_witness :
  first_missing [("type", PStr "error"); ("code", PStr "resource-not-found")] = Some "id" /\
  normalize error_record = Raise (KeyError "id") /\
  first_missing (sample_fields ++ [("subClass", PStr "Groceries")]) = None /\
  normalize (PDict (sample_fields ++ [("subClass", PStr "Groceries")])) = Raise TypeError.
Proof.
  split; [reflexivity|].
  split; [exact (proj1 (proj2 (normalize_errors
                   [("type", PStr "error"); ("code", PStr "resource-not-found")])) "id" eq_refl)|].
  split; [reflexivity|].
  refine (proj1 (proj2 (proj2 (normalize_errors (sample_fields ++ [("subClass", PStr "Groceries")])))
                  eq_refl (PStr "Groceries") eq_refl eq_refl) _).
  intros sub H. discriminate H.
Defined.

(** X15.  Any falsy [subClass] counts as absent.  With the eleven plain keys
    present, a record whose [subClass] is missing, null, an empty object, an
    empty string, zero, false or an empty list normalizes with both subclass
    fields [None], and with the eleven plain fields taken from the record. *)
Theorem normalize_falsy_subclass (d : list (string * pyval))
    (Hkeys : first_missing d = None) (Hfalsy : subclass_falsy d = true) :
  exists t,
    normalize (PDict d) = Ret t /\
    subClass_title t = PNone /\ subClass_code t = PNone /\
    dict_lookup "id" d = Some (id t) /\ dict_lookup "amount" d = Some (amount t).
Proof.
  unfold first_missing, required_keys, subclass_falsy, normalize, getitem, get_method in *.
  simpl in Hkeys.
  destruct (dict_lookup "type" d); [|discriminate].
  destruct (dict_lookup "id" d); [|discriminate].
  destruct (dict_lookup "status" d); [|discriminate].
  destruct (dict_lookup "description" d); [|discriminate].
  destruct (dict_lookup "amount" d); [|discriminate].
  destruct (dict_lookup "account" d); [|discriminate].
  destruct (dict_lookup "balance" d); [|discriminate].
  destruct (dict_lookup "direction" d); [|discriminate].
  destruct (dict_lookup "class" d); [|discriminate].
  destruct (dict_lookup "institution" d); [|discriminate].
  destruct (dict_lookup "postDate" d); [|discriminate].
  destruct (dict_lookup "subClass" d) as [c|].
  - apply negb_true_iff in Hfalsy. rewrite Hfalsy. eexists. simpl. auto.
  - eexists. simpl. auto.
Qed.

Lemma normalize_falsy_subclass_witness :
  first_missing (sample_fields ++ [("subClass", PDict [])]) = None /\
  subclass_falsy (sample_fields ++ [("subClass", PDict [])]) = true /\
  exists t,
    normalize (PDict (sample_fields ++ [("subClass", PDict [])])) = Ret t /\
    subClass_title t = PNone /\ subClass_code t = PNone.
Proof.
  split; [reflexivity|]. split; [reflexivity|].
  destruct (normalize_falsy_subclass (sample_fields ++ [("subClass", PDict [])]) eq_refl eq_refl)
    as (t & Ht & Htitle & Hcode & _).
  exists t. auto.
Defined.

(** ** The frame of a fetch *)

(** X16.  The frame is all or nothing and keeps the provider's order.
    [normalize_all] returns a frame exactly when every item normalizes, and
    the frame then has one row per item, row by row the item's
    normalization; the first item that does not normalize makes the whole
    loop raise that item's exception, whatever follows it. *)
Theorem normalize_all_spec (items : list pyval) :
  (forall frame, normalize_all items = Ret frame <->
                 Forall2 (fun item row => normalize item = Ret row) items frame) /\
  (forall pre bad post rows e,
     items = pre ++ bad :: post ->
     Forall2 (fun item row => normalize item = Ret row) pre rows ->
     normalize bad = Raise e ->
     normalize_all items = Raise e).
Proof.
  split.
  - induction items as [|item items IH]; intros frame; simpl.
    + split.
      * intros H. inversion H. constructor.
      * intros H. inversion H. reflexivity.
    + destruct (normalize item) as [row|e] eqn:Hitem.
      * destruct (normalize_all items) as [rows|e] eqn:Hall.
        -- split.
           ++ intros H. inversion H; subst. constructor; [exact Hitem|].
              apply IH. reflexivity.
           ++ intros H. inversion H as [|? row' ? rows' Hrow Hrest]; subst.
              rewrite Hitem in Hrow. inversion Hrow; subst.
              apply IH in Hrest. inversion Hrest. reflexivity.
        -- split; [discriminate|].
           intros H. inversion H as [|? row' ? rows' Hrow Hrest]; subst.
           apply IH in Hrest. discriminate Hrest.
      * split; [discriminate|].
        intros H. inversion H as [|? row' ? rows' Hrow Hrest]; subst.
        rewrite Hitem in Hrow. discriminate Hrow.
  - intros pre bad post rows e -> Hpre Hbad.
    induction Hpre as [|item row pre rows Hitem _ IH]; simpl.
    + rewrite Hbad. reflexivity.
    + rewrite Hitem, IH. reflexivity.
Qed.

Lemma normalize_all_spec_witness :
  normalize error_record = Raise (KeyError "id") /\
  normalize_all ([sample_with_subclass] ++ error_record :: [sample_without_subclass]) =
    Raise (KeyError "id").
Proof.
  split; [reflexivity|].
  refine (proj2 (normalize_all_spec _) [sample_with_subclass] error_record
            [sample_without_subclass] _ (KeyError "id") eq_refl _ eq_refl).
  constructor; [reflexivity | constructor].
Defined.


(** ** Ingestion *)


Lemma insert_transaction_stores (G : engine) (row : txn sqlval) (u : Z) (fk : bool)
    (d d' : database) (x : unit) :
  insert_transaction G row u fk d = Ret (x, d') ->
  users d' = users d /\
  binds u [row] = true /\
  exists old, transactions d = Some old /\
              transactions d' = Some (old ++ [stored_row G u row]).
Proof.
  unfold insert_transaction, bind_row, bind_int, stored_row, binds.
  cbn [forallb]. cbv beta zeta. rewrite andb_true_r.
  destruct (transactions d) as [old|]; [|discriminate].
  destruct fk.
  - destruct (users d); [|discriminate].
    destruct (forallb bindable (cells row)); [|discriminate].
    destruct (in_int64 u); [|discriminate].
    destruct (id_taken _ _ _); [discriminate|].
    destruct (existsb _ _); [|discriminate].
    intros H; inversion H; subst; simpl. eauto.
  - destruct (forallb bindable (cells row)); [|discriminate].
    destruct (in_int64 u); [|discriminate].
    destruct (id_taken _ _ _); [discriminate|].
    intros H; inversion H; subst; simpl. eauto.
Qed.




Lemma insert_all_stores (G : engine) (u : Z) (rows : list (txn sqlval)) (d d' : database) :
  insert_all G u rows d = Ret d' ->
  users d' = users d /\
  transaction_list d' = transaction_list d ++ owned_by G u rows.
Proof.
  revert d. induction rows as [|row rest IH]; simpl; intros d H.
  - inversion H; subst. rewrite app_nil_r. auto.
  - destruct (insert_transaction G row u true d) as [[x d1]|e] eqn:Hrow; [|discriminate].
    apply insert_transaction_stores in Hrow as (Hu & _ & old & Hold & Hnew).
    apply IH in H as (Hu' & Hl). split; [congruence|].
    rewrite Hl. unfold transaction_list. rewrite Hold, Hnew, <- app_assoc. reflexivity.
Qed.


Lemma for_each_insert (G : engine) (u : Z) (rows : list (txn sqlval)) (d : database)
    (w : world) :
  exists c,
    for_each rows (fun row => execute (insert_transaction G row u)) (mk_conn d true, w) =
      (match insert_all G u rows d with Ret _ => Ret tt | Raise e => Raise e end, (c, w)) /\
    forall d', insert_all G u rows d = Ret d' -> c = mk_conn d' true.
Proof.
  revert d. induction rows as [|row rest IH]; intros d; simpl.
  - eexists. split; [reflexivity|]. intros d' H. inversion H. reflexivity.
  - unfold bind at 1. unfold execute at 1. simpl.
    destruct (insert_transaction G row u true d) as [[x d1]|e] eqn:Hrow.
    + destruct (IH d1) as (c & Hc & Hd). exists c. split; assumption.
    + eexists. split; [reflexivity|]. discriminate.
Qed.

Lemma cache_transactions_spec (E : environment) (u : Z) (rows : list (txn sqlval))
    (w : world) :
  cache_transactions E u rows w =
  match insert_all (sqlite E) u rows (db w) with
  | Ret d' => (Ret (PStr inserted_message), mk_world d' (trace w))
  | Raise (SqliteError msg) => (Ret (PStr (error_prefix ++ msg)%string), w)
  | Raise e => (Raise e, w)
  end.
Proof.
  unfold cache_transactions.
  destruct (for_each_insert (sqlite E) u rows (db w) w) as (c & Hc & Hd).
  unfold except_sqlite, with_connect, bind, pragma_foreign_keys_on, ret.
  simpl. rewrite Hc.
  destruct (insert_all (sqlite E) u rows (db w)) as [d'|e].
  - rewrite (Hd d' eq_refl). reflexivity.
  - destruct e; reflexivity.
Qed.






Lemma find_user_existsb (u : Z) (rows : list user_row) (r : user_row) :
  find_user u rows = Some r -> existsb (fun r' => u_id r' =? u) rows = true.
Proof.
  unfold find_user. destruct (in_int64 u); [|discriminate].
  induction rows as [|r' rows IH]; simpl; [discriminate|].
  destruct (u_id r' =? u); simpl; auto.
Qed.



(** ** Reading the cache, and more on ingestion *)

Lemma fetch_transactions_by_user_spec (u : Z) (w : world) :
  fetch_transactions_by_user u w =
  (match transactions (db w) with
   | None => Raise (OtherError "pandas.errors.DatabaseError")
   | Some rows =>
       if in_int64 u then Ret (Some (filter (fun t => trans_u_id t =? u) rows))
       else Raise (OtherError "pandas.errors.DatabaseError")
   end, w).
Proof.
  unfold fetch_transactions_by_user, select_transactions. run_m.
  destruct w as [d tr]; simpl.
  destruct (transactions d); [|reflexivity].
  destruct (in_int64 u); reflexivity.
Qed.

Lemma insert_all_app (G : engine) (u : Z) (l1 l2 : list (txn sqlval)) (d : database) :
  insert_all G u (l1 ++ l2) d =
  match insert_all G u l1 d with
  | Ret d1 => insert_all G u l2 d1
  | Raise e => Raise e
  end.
Proof.
  revert d. induction l1 as [|row l1 IH]; simpl; intros d; [reflexivity|].
  destruct (insert_transaction G row u true d) as [[x d']|e]; [apply IH | reflexivity].
Qed.

Lemma insert_all_table (G : engine) (u : Z) (rows : list (txn sqlval)) (d d' : database)
    (old : list transaction_row) :
  insert_all G u rows d = Ret d' ->
  transactions d = Some old ->
  transactions d' = Some (old ++ owned_by G u rows).
Proof.
  revert d old. induction rows as [|row rest IH]; simpl; intros d old H Hold.
  - inversion H; subst. rewrite app_nil_r. exact Hold.
  - destruct (insert_transaction G row u true d) as [[x d1]|e] eqn:Hrow; [|discriminate].
    apply insert_transaction_stores in Hrow as (_ & _ & old' & Hold' & Hnew).
    rewrite Hold in Hold'. inversion Hold'; subst old'.
    rewrite (IH d1 _ H Hnew), <- app_assoc. reflexivity.
Qed.


Lemma cache_transactions_success (E : environment) (u : Z) (rows : list (txn sqlval))
    (w : world) :
  result (cache_transactions E u rows) w = Ret (PStr inserted_message) <->
  exists d', insert_all (sqlite E) u rows (db w) = Ret d'.
Proof.
  unfold result. rewrite cache_transactions_spec.
  destruct (insert_all (sqlite E) u rows (db w)) as [d'|e] eqn:Hall; simpl.
  - split; eauto.
  - split.
    + destruct e; simpl; intros H; discriminate H.
    + intros (d' & H). discriminate H.
Qed.

Lemma filter_owned_by_same (G : engine) (u : Z) (rows : list (txn sqlval)) :
  filter (fun t => trans_u_id t =? u) (owned_by G u rows) = owned_by G u rows.
Proof.
  induction rows as [|row rows IH]; [reflexivity|].
  unfold owned_by in *. cbn [map filter stored_row trans_u_id].
  rewrite Z.eqb_refl, IH. reflexivity.
Qed.

Lemma filter_owned_by_other (G : engine) (u u' : Z) (rows : list (txn sqlval)) :
  u' <> u -> filter (fun t => trans_u_id t =? u') (owned_by G u rows) = [].
Proof.
  intros Hne. induction rows as [|row rows IH]; [reflexivity|].
  unfold owned_by in *. cbn [map filter stored_row trans_u_id].
  assert (H : (u =? u') = false) by (apply Z.eqb_neq; lia).
  rewrite H. exact IH.
Qed.

Lemma find_user_none_existsb (u : Z) (rows : list user_row) :
  in_int64 u = true ->
  find_user u rows = None -> existsb (fun r => u_id r =? u) rows = false.
Proof.
  unfold find_user. intros ->.
  induction rows as [|r rows IH]; simpl; [reflexivity|].
  destruct (u_id r =? u); simpl; [discriminate | exact IH].
Qed.

(** X8.  Round trip of the cache.  On a store with a [transactions] table
    and for a user id within SQLite's integers, [fetch_transactions_by_user]
    returns exactly the rows whose owner is the given user, in the order they
    were stored, and changes nothing.  After a successful
    [cache_transactions u rows] it returns what it returned before followed
    by the rows of the batch as the columns of the table store them, and what
    it returns for any other user is unchanged; after [clear_transactions] it
    returns the empty frame for every user. *)
Theorem cache_then_fetch (E : environment) (u : Z) (w : world) (old : list transaction_row)
    (Htable : transactions (db w) = Some old)
    (Hrange : in_int64 u = true) :
  result (fetch_transactions_by_user u) w = Ret (Some (owned u (db w))) /\
  run (fetch_transactions_by_user u) w = w /\
  (forall rows,
     result (cache_transactions E u rows) w = Ret (PStr inserted_message) ->
     result (fetch_transactions_by_user u) (run (cache_transactions E u rows) w) =
       Ret (Some (owned u (db w) ++ owned_by (sqlite E) u rows)) /\
     forall u', u' <> u ->
       result (fetch_transactions_by_user u') (run (cache_transactions E u rows) w) =
       result (fetch_transactions_by_user u') w) /\
  result (fetch_transactions_by_user u) (run clear_transactions w) = Ret (Some []).
Proof.
  unfold result, run, owned, transaction_list.
  rewrite !fetch_transactions_by_user_spec, Htable, Hrange. simpl.
  split; [reflexivity|]. split; [reflexivity|]. split.
  - intros rows Hok. apply cache_transactions_success in Hok as (d' & Hall).
    rewrite cache_transactions_spec, Hall. simpl.
    rewrite !fetch_transactions_by_user_spec. simpl.
    rewrite (insert_all_table _ _ _ _ _ _ Hall Htable), Hrange. simpl. split.
    + rewrite filter_app, filter_owned_by_same. reflexivity.
    + intros u' Hne. rewrite !fetch_transactions_by_user_spec. simpl.
      rewrite (insert_all_table _ _ _ _ _ _ Hall Htable), Htable.
      destruct (in_int64 u'); [|reflexivity].
      rewrite filter_app, (filter_owned_by_other _ u u' rows Hne), app_nil_r. reflexivity.
  - rewrite clear_transactions_spec, Htable. simpl. rewrite ?Hrange. reflexivity.
Qed.

Lemma cache_then_fetch_witness :
  transactions (db one_user) = Some [] /\
  result (cache_transactions lenient 1 [sample_row; other_row]) one_user =
    Ret (PStr inserted_message) /\
  result (fetch_transactions_by_user 1)
         (run (cache_transactions lenient 1 [sample_row; other_row]) one_user) =
    Ret (Some [sample_stored; other_stored]) /\
  result (fetch_transactions_by_user 2)
         (run (cache_transactions lenient 1 [sample_row; other_row]) one_user) = Ret (Some []).
Proof.
  split; [reflexivity|]. split; [reflexivity|].
  destruct (cache_then_fetch lenient 1 one_user [] eq_refl eq_refl) as (_ & _ & Hcache & _).
  destruct (Hcache [sample_row; other_row] eq_refl) as (Hmine & Hothers).
  split; [exact Hmine|].
  rewrite (Hothers 2); [reflexivity | discriminate].
Defined.

(** X9.  The empty batch.  [cache_transactions] with no rows executes no
    statement: it reports success and changes nothing, on any store, also on
    a file that has no tables yet and for a user that does not exist. *)
Theorem cache_transactions_empty_batch (E : environment) (u : Z) (w : world) :
  result (cache_transactions E u []) w = Ret (PStr inserted_message) /\
  run (cache_transactions E u []) w = w.
Proof.
  unfold result, run. rewrite cache_transactions_spec. simpl.
  destruct w; auto.
Qed.








(** X12.  Batches compose.  Ingesting [rows1] and then [rows2] for a user
    succeeds both times exactly when ingesting [rows1 ++ rows2] in one call
    succeeds, and the store is then the same either way. *)
Theorem cache_transactions_compose (E : environment) (u : Z) (rows1 rows2 : list (txn sqlval))
    (w : world) :
  (result (cache_transactions E u rows1) w = Ret (PStr inserted_message) /\
   result (cache_transactions E u rows2) (run (cache_transactions E u rows1) w) =
     Ret (PStr inserted_message)
   <->
   result (cache_transactions E u (rows1 ++ rows2)) w = Ret (PStr inserted_message)) /\
  (result (cache_transactions E u (rows1 ++ rows2)) w = Ret (PStr inserted_message) ->
   run (cache_transactions E u (rows1 ++ rows2)) w =
   run (cache_transactions E u rows2) (run (cache_transactions E u rows1) w)).
Proof.
  rewrite !cache_transactions_success.
  unfold run. rewrite insert_all_app, (cache_transactions_spec E u rows1 w),
    (cache_transactions_spec E u (rows1 ++ rows2) w), insert_all_app.
  destruct (insert_all (sqlite E) u rows1 (db w)) as [d1|e] eqn:H1; simpl.
  - rewrite cache_transactions_spec. simpl.
    destruct (insert_all (sqlite E) u rows2 d1) as [d2|e] eqn:H2; simpl.
    + split; [split; eauto | reflexivity].
    + split; [split|].
      * intros (_ & d' & H). discriminate H.
      * intros (d' & H). discriminate H.
      * intros (d' & H). discriminate H.
  - split; [split|].
    + intros ((d' & H) & _). discriminate H.
    + intros (d' & H). discriminate H.
    + intros (d' & H). discriminate H.
Qed.

Lemma cache_transactions_compose_witness :
  result (cache_transactions lenient 1 ([sample_row] ++ [other_row])) one_user =
    Ret (PStr inserted_message) /\
  run (cache_transactions lenient 1 ([sample_row] ++ [other_row])) one_user =
  run (cache_transactions lenient 1 [other_row])
      (run (cache_transactions lenient 1 [sample_row]) one_user).
Proof.
  split; [reflexivity|].
  exact (proj2 (cache_transactions_compose lenient 1 [sample_row] [other_row] one_user) eq_refl).
Defined.

(** ** The authorization link *)

Lemma link_bank_account_spec (E : environment) (u : Z) (w : world) :
  link_bank_account E u w =
  match users (db w) with
  | None => (Ret (PStr no_users_table), w)
  | Some t =>
      if in_int64 u then
        match find_user u (user_rows t) with
        | None => (Ret (PStr not_found), w)
        | Some r =>
            let call := CreateAuthLink (py_of_sql (basiq_id r)) (access_token E) in
            match respond E (trace w) call with
            | Raise e => (caught (Raise e), mk_world (db w) (trace w ++ [call]))
            | Ret reply =>
                match get_method reply "links" with
                | Raise e => (caught (Raise e), mk_world (db w) (trace w ++ [call]))
                | Ret links =>
                    match get_method links "public" with
                    | Raise e => (caught (Raise e), mk_world (db w) (trace w ++ [call]))
                    | Ret link =>
                        (match respond E (trace w ++ [call]) (WebbrowserOpen link) with
                         | Raise e => caught (Raise e)
                         | Ret _ => Ret PNone
                         end,
                         mk_world (db w) (trace w ++ [call; WebbrowserOpen link]))
                    end
                end
            end
        end
      else (Raise OverflowError, w)
  end.
Proof.
  unfold link_bank_account, select_basiq_id, bind_int, row_truthy, row_item, caught,
    no_users_table.
  run_m. destruct w as [d tr]; simpl.
  destruct (users d) as [t|]; simpl; [|reflexivity].
  destruct (in_int64 u); simpl; [|reflexivity].
  destruct (find_user u (user_rows t)) as [r|]; simpl; [|reflexivity].
  destruct (respond E tr _) as [reply|e]; simpl; [|destruct e; reflexivity].
  destruct (get_method reply "links") as [links|e]; simpl; [|destruct e; reflexivity].
  destruct (get_method links "public") as [link|e]; simpl; [|destruct e; reflexivity].
  rewrite <- app_assoc. simpl.
  destruct (respond E _ (WebbrowserOpen link)) as [opened|e]; simpl; [reflexivity|].
  destruct e; reflexivity.
Qed.

Lemma link_bank_account_db (E : environment) (u : Z) (w : world) :
  db (run (link_bank_account E u) w) = db w.
Proof.
  unfold run. rewrite link_bank_account_spec.
  destruct (users (db w)) as [t|]; [|reflexivity].
  destruct (in_int64 u); [|reflexivity].
  destruct (find_user u (user_rows t)) as [r|]; [|reflexivity].
  cbv zeta.
  destruct (respond E (trace w) _) as [reply|e]; [|reflexivity].
  destruct (get_method reply "links") as [links|e]; [|reflexivity].
  destruct (get_method links "public") as [link|e]; reflexivity.
Qed.

(** C9, as stated, fails.  User 1 of the scenario has a NULL [basiq_id];
    [link_bank_account 1] does not fail: it asks the provider for a link for
    the account [None], opens the browser on the reply and returns. *)
Lemma link_bank_account_unlinked_counterexample :
  (exists r, find_user 1 (user_list (db one_user)) = Some r /\ basiq_id r = SNull) /\
  result (link_bank_account lenient 1) one_user = Ret PNone /\
  trace (run (link_bank_account lenient 1) one_user) =
    [CreateAuthLink PNone (PStr "token");
     WebbrowserOpen (PStr "https://connect.basiq.io/consent")].
Proof.
  split; [eexists; split; reflexivity|].
  split; reflexivity.
Qed.

(** C9, amended.  [link_bank_account] makes no link check: for an existing
    user whose [basiq_id] is NULL it calls the provider's auth-link
    capability with [None] as the account id, and when the provider replies
    with a public link and the browser opens, it returns normally.  Whether
    it succeeds or fails, it only reads: the [users] and [transactions]
    tables are what they were. *)
Theorem link_bank_account_reads_only (E : environment) (u : Z) (w : world) :
  db (run (link_bank_account E u) w) = db w /\
  (forall t r,
     users (db w) = Some t ->
     find_user u (user_rows t) = Some r ->
     basiq_id r = SNull ->
     (exists rest,
        trace (run (link_bank_account E u) w) =
          trace w ++ CreateAuthLink PNone (access_token E) :: rest) /\
     (forall reply links link opened,
        respond E (trace w) (CreateAuthLink PNone (access_token E)) = Ret reply ->
        get_method reply "links" = Ret links ->
        get_method links "public" = Ret link ->
        respond E (trace w ++ [CreateAuthLink PNone (access_token E)]) (WebbrowserOpen link)
          = Ret opened ->
        result (link_bank_account E u) w = Ret PNone)).
Proof.
  split; [apply link_bank_account_db|].
  intros t r Hstore Huser Hnull.
  unfold result, run. rewrite link_bank_account_spec.
  rewrite Hstore, (find_user_in_range _ _ _ Huser), Huser, Hnull. cbv zeta.
  cbn [py_of_sql].
  split.
  - destruct (respond E (trace w) _) as [reply|e]; [|eexists; reflexivity].
    destruct (get_method reply "links") as [links|e]; [|eexists; reflexivity].
    destruct (get_method links "public") as [link|e]; eexists; reflexivity.
  - intros reply links link opened Hreply Hlinks Hlink Hopen.
    rewrite Hreply, Hlinks, Hlink. simpl. rewrite Hopen. reflexivity.
Qed.

Lemma link_bank_account_reads_only_witness :
  users (db one_user) = Some (mk_users (user_list (db one_user)) 1) /\
  (exists rest,
     trace (run (link_bank_account lenient 1) one_user) =
       trace one_user ++ CreateAuthLink PNone (access_token lenient) :: rest) /\
  result (link_bank_account lenient 1) one_user = Ret PNone /\
  db (run (link_bank_account lenient 1) one_user) = db one_user.
Proof.
  split; [reflexivity|].
  destruct (link_bank_account_reads_only lenient 1 one_user) as (Hdb & Hunlinked).
  destruct (Hunlinked (mk_users (user_list (db one_user)) 1)
              (mk_user 1 (SText "a@x.com") (SText "000") (SText "A") (SText "")
                       (SText "B") (SText "h") SNull)
              eq_refl eq_refl eq_refl) as (Hcall & Hreturns).
  split; [exact Hcall|]. split; [|exact Hdb].
  apply (Hreturns (PDict [("links", PDict [("public", PStr "https://connect.basiq.io/consent")])])
                  (PDict [("public", PStr "https://connect.basiq.io/consent")])
                  (PStr "https://connect.basiq.io/consent") (PBool true));
    reflexivity.
Defined.

(** X19.  [link_bank_account] without a user row.  For an id within SQLite's
    integers that no row of [users] carries the function returns the
    not-found message, on a file without a [users] table the storage-error
    message, and for an id outside the 64-bit integers it raises the
    [OverflowError] of the binding; in all three cases it asks the provider
    nothing, opens no browser and changes nothing. *)
Theorem link_bank_account_unknown_user (E : environment) (u : Z) (w : world) :
  (forall t, users (db w) = Some t -> in_int64 u = true ->
     find_user u (user_rows t) = None ->
     result (link_bank_account E u) w = Ret (PStr not_found) /\
     run (link_bank_account E u) w = w) /\
  (users (db w) = None ->
     result (link_bank_account E u) w = Ret (PStr no_users_table) /\
     run (link_bank_account E u) w = w) /\
  (forall t, users (db w) = Some t -> in_int64 u = false ->
     result (link_bank_account E u) w = Raise OverflowError /\
     run (link_bank_account E u) w = w).
Proof.
  unfold result, run. rewrite link_bank_account_spec. split; [|split].
  - intros t Hstore Hrange Habsent. rewrite Hstore, Hrange, Habsent. auto.
  - intros Hnone. rewrite Hnone. auto.
  - intros t Hstore Hrange. rewrite Hstore, Hrange. auto.
Qed.

Lemma link_bank_account_unknown_user_witness :
  find_user 9 (user_list (db one_user)) = None /\
  result (link_bank_account lenient 9) one_user = Ret (PStr not_found) /\
  run (link_bank_account lenient 9) one_user = one_user /\
  result (link_bank_account lenient 1) fresh = Ret (PStr no_users_table) /\
  result (link_bank_account lenient too_big) one_user = Raise OverflowError.
Proof.
  split; [reflexivity|].
  destruct (link_bank_account_unknown_user lenient 9 one_user) as (Habsent & _).
  destruct (link_bank_account_unknown_user lenient 1 fresh) as (_ & Hnone & _).
  destruct (link_bank_account_unknown_user lenient too_big one_user) as (_ & _ & Hbig).
  destruct (Habsent _ eq_refl eq_refl eq_refl) as (Hr & Hw).
  split; [exact Hr|]. split; [exact Hw|].
  split; [exact (proj1 (Hnone eq_refl)) | exact (proj1 (Hbig _ eq_refl eq_refl))].
Defined.

(** X20.  What [link_bank_account] does with the provider's reply, for an
    existing user.  With a [links.public] entry it asks for a link for the
    stored [basiq_id], opens the browser on that link and returns [None]:
    the link itself is never returned.  A reply without [links] raises
    [AttributeError] before any browser is opened; a [links] object without
    [public] has the browser opened on [None]. *)
Theorem link_bank_account_reply (E : environment) (u : Z) (w : world) (t : users_table)
    (r : user_row) (reply : pyval)
    (Hstore : users (db w) = Some t)
    (Huser : find_user u (user_rows t) = Some r)
    (Hreply : respond E (trace w)
                (CreateAuthLink (py_of_sql (basiq_id r)) (access_token E)) = Ret reply) :
  (forall links link opened,
     get_method reply "links" = Ret links ->
     get_method links "public" = Ret link ->
     respond E (trace w ++ [CreateAuthLink (py_of_sql (basiq_id r)) (access_token E)])
             (WebbrowserOpen link) = Ret opened ->
     result (link_bank_account E u) w = Ret PNone /\
     trace (run (link_bank_account E u) w) =
       trace w ++ [CreateAuthLink (py_of_sql (basiq_id r)) (access_token E);
                   WebbrowserOpen link]) /\
  (forall d, reply = PDict d -> dict_lookup "links" d = None ->
     result (link_bank_account E u) w = Raise AttributeError /\
     trace (run (link_bank_account E u) w) =
       trace w ++ [CreateAuthLink (py_of_sql (basiq_id r)) (access_token E)]) /\
  (forall d ld, reply = PDict d -> dict_lookup "links" d = Some (PDict ld) ->
     dict_lookup "public" ld = None ->
     trace (run (link_bank_account E u) w) =
       trace w ++ [CreateAuthLink (py_of_sql (basiq_id r)) (access_token E);
                   WebbrowserOpen PNone]).
Proof.
  unfold result, run.
  rewrite link_bank_account_spec, Hstore, (find_user_in_range _ _ _ Huser), Huser. cbv zeta.
  rewrite Hreply. split; [|split].
  - intros links link opened Hlinks Hlink Hopen. rewrite Hlinks, Hlink, Hopen. auto.
  - intros d -> Hnone. simpl. rewrite Hnone. simpl. auto.
  - intros d ld -> Hlinks Hnone. simpl. rewrite Hlinks. simpl. rewrite Hnone. reflexivity.
Qed.

Lemma link_bank_account_reply_witness :
  respond lenient (trace linked_user) (CreateAuthLink (PStr "basiq-1") (access_token lenient)) =
    Ret (PDict [("links", PDict [("public", PStr "https://connect.basiq.io/consent")])]) /\
  result (link_bank_account lenient 1) linked_user = Ret PNone /\
  trace (run (link_bank_account lenient 1) linked_user) =
    trace linked_user ++ [CreateAuthLink (PStr "basiq-1") (PStr "token");
                          WebbrowserOpen (PStr "https://connect.basiq.io/consent")] /\
  trace (run (link_bank_account no_public_link 1) linked_user) =
    trace linked_user ++ [CreateAuthLink (PStr "basiq-1") (PStr "token"); WebbrowserOpen PNone].
Proof.
  split; [reflexivity|].
  destruct (link_bank_account_reply lenient 1 linked_user
              (mk_users (user_list (db linked_user)) 1)
              (mk_user 1 (SText "a@x.com") (SText "000") (SText "A") (SText "")
                       (SText "B") (SText "h") (SText "basiq-1"))
              _ eq_refl eq_refl eq_refl) as (Hgood & _).
  destruct (link_bank_account_reply no_public_link 1 linked_user
              (mk_users (user_list (db linked_user)) 1)
              (mk_user 1 (SText "a@x.com") (SText "000") (SText "A") (SText "")
                       (SText "B") (SText "h") (SText "basiq-1"))
              _ eq_refl eq_refl eq_refl) as (_ & _ & Hnone).
  destruct (Hgood (PDict [("public", PStr "https://connect.basiq.io/consent")])
                  (PStr "https://connect.basiq.io/consent") (PBool true)
                  eq_refl eq_refl eq_refl) as (Hr & Ht).
  split; [exact Hr|]. split; [exact Ht|].
  exact (Hnone _ _ eq_refl eq_refl eq_refl).
Defined.

(** ** The call and the reply of [request_transactions_df] *)

(** X17.  The one call of [request_transactions_df].  On a store with a
    [users] table the function changes no table, and for a user id within
    SQLite's integers it sends exactly one request to the provider's
    transaction list; the account id it sends is what [get_basiq_id]
    returned: the stored id of a linked user, and for an id without a user
    row the not-found message itself.  For a user id outside the 64-bit
    integers [get_basiq_id] raises [OverflowError], which reaches the caller
    before anything is sent. *)
Theorem request_transactions_df_call (E : environment) (u : Z) (l f : pyval) (w : world)
    (t : users_table) (Hstore : users (db w) = Some t) :
  db (run (request_transactions_df E u l f) w) = db w /\
  (forall r, find_user u (user_rows t) = Some r ->
     trace (run (request_transactions_df E u l f) w) =
       trace w ++ [GetTransactionList (py_of_sql (basiq_id r)) l f (access_token E)]) /\
  (in_int64 u = true -> find_user u (user_rows t) = None ->
     trace (run (request_transactions_df E u l f) w) =
       trace w ++ [GetTransactionList (PStr not_found) l f (access_token E)]) /\
  (in_int64 u = false ->
     result (request_transactions_df E u l f) w = Raise OverflowError /\
     run (request_transactions_df E u l f) w = w).
Proof.
  unfold result, run. rewrite request_transactions_df_spec. unfold basiq_answer, answered.
  rewrite Hstore.
  split; [destruct (in_int64 u); reflexivity|]. split; [|split].
  - intros r Hr. rewrite (find_user_in_range _ _ _ Hr), Hr. reflexivity.
  - intros Hrange Hr. rewrite Hrange, Hr. reflexivity.
  - intros Hrange. rewrite Hrange. auto.
Qed.

Lemma request_transactions_df_call_witness :
  users (db linked_user) = Some (mk_users (user_list (db linked_user)) 1) /\
  trace (run (request_transactions_df lenient 1 default_limit_para default_filter_para)
             linked_user) =
    trace linked_user ++ [GetTransactionList (PStr "basiq-1") (PInt 500) (PStr "") (PStr "token")] /\
  trace (run (request_transactions_df lenient 9 default_limit_para default_filter_para)
             linked_user) =
    trace linked_user ++
    [GetTransactionList (PStr "No user found with the given ID.") (PInt 500) (PStr "")
                        (PStr "token")] /\
  result (request_transactions_df lenient too_big default_limit_para default_filter_para)
         linked_user = Raise OverflowError.
Proof.
  split; [reflexivity|].
  destruct (request_transactions_df_call lenient 1 default_limit_para default_filter_para
              linked_user _ eq_refl) as (_ & Hlinked & _).
  destruct (request_transactions_df_call lenient 9 default_limit_para default_filter_para
              linked_user _ eq_refl) as (_ & _ & Hunknown & _).
  destruct (request_transactions_df_call lenient too_big default_limit_para default_filter_para
              linked_user _ eq_refl) as (_ & _ & _ & Hbig).
  split; [|split].
  - exact (Hlinked (mk_user 1 (SText "a@x.com") (SText "000") (SText "A") (SText "")
                            (SText "B") (SText "h") (SText "basiq-1")) eq_refl).
  - exact (Hunknown eq_refl eq_refl).
  - exact (proj1 (Hbig eq_refl)).
Defined.

(** X18.  What [request_transactions_df] makes of the reply.  When
    [get_basiq_id] returns a value, that value is the account of the one
    request; an exception of the provider call reaches the caller (the
    function has no handler); a reply that is not an object raises
    [TypeError] and an object without [data] raises [KeyError]; a [data]
    list is normalized item by item, so an empty list gives the empty frame.
    When [get_basiq_id] raises, so does the function, and nothing is asked. *)
Theorem request_transactions_df_reply (E : environment) (u : Z) (l f : pyval) (w : world) :
  (forall basiq,
     result (get_basiq_id u) w = Ret basiq ->
     (forall e,
        respond E (trace w) (GetTransactionList basiq l f (access_token E)) = Raise e ->
        result (request_transactions_df E u l f) w = Raise e) /\
     (forall reply,
        respond E (trace w) (GetTransactionList basiq l f (access_token E)) = Ret reply ->
        ((forall d, reply <> PDict d) ->
           result (request_transactions_df E u l f) w = Raise TypeError) /\
        (forall d, reply = PDict d -> dict_lookup "data" d = None ->
           result (request_transactions_df E u l f) w = Raise (KeyError "data")) /\
        (forall d items, reply = PDict d -> dict_lookup "data" d = Some (PList items) ->
           result (request_transactions_df E u l f) w = normalize_all items) /\
        (forall d, reply = PDict d -> dict_lookup "data" d = Some (PList []) ->
           result (request_transactions_df E u l f) w = Ret []))) /\
  (forall e,
     result (get_basiq_id u) w = Raise e ->
     result (request_transactions_df E u l f) w = Raise e /\
     run (request_transactions_df E u l f) w = w).
Proof.
  unfold result, run. rewrite request_transactions_df_spec, get_basiq_id_spec. simpl. split.
  - intros basiq ->. simpl. split.
    + intros e ->. reflexivity.
    + intros reply ->. simpl. split; [|split; [|split]].
      * intros Hshape. destruct reply; try reflexivity. exfalso. eapply Hshape. reflexivity.
      * intros d -> Hdata. simpl. rewrite Hdata. reflexivity.
      * intros d items -> Hdata. simpl. rewrite Hdata. reflexivity.
      * intros d -> Hdata. simpl. rewrite Hdata. reflexivity.
  - intros e ->. auto.
Qed.

Lemma request_transactions_df_reply_witness :
  result (get_basiq_id 1) linked_user = Ret (PStr "basiq-1") /\
  respond two_records (trace linked_user)
    (GetTransactionList (PStr "basiq-1") default_limit_para default_filter_para
                        (access_token two_records)) =
    Ret (PDict [("type", PStr "list");
                ("data", PList [sample_with_subclass; sample_without_subclass])]) /\
  result (request_transactions_df two_records 1 default_limit_para default_filter_para)
         linked_user =
    normalize_all [sample_with_subclass; sample_without_subclass] /\
  result (request_transactions_df offline 1 default_limit_para default_filter_para) linked_user =
    Raise (OtherError "requests.exceptions.ConnectionError") /\
  result (request_transactions_df offline too_big default_limit_para default_filter_para)
         linked_user = Raise OverflowError.
Proof.
  split; [reflexivity|]. split; [reflexivity|].
  destruct (request_transactions_df_reply two_records 1 default_limit_para default_filter_para
              linked_user) as (Hreturns & _).
  destruct (Hreturns _ eq_refl) as (_ & Hreply).
  destruct (Hreply _ eq_refl) as (_ & _ & Hdata & _).
  split; [exact (Hdata _ _ eq_refl eq_refl)|].
  split.
  - exact (proj1 (proj1 (request_transactions_df_reply offline 1 default_limit_para
                           default_filter_para linked_user) _ eq_refl) _ eq_refl).
  - exact (proj1 (proj2 (request_transactions_df_reply offline too_big default_limit_para
                           default_filter_para linked_user) _ eq_refl)).
Defined.

(** ** The operations as steps of the store *)

Lemma init_dolfin_db_spec (w : world) :
  init_dolfin_db w =
  (Ret (PStr init_message),
   mk_world (mk_db (Some (match users (db w) with Some t => t | None => mk_users [] 0 end))
                   (Some (transaction_list (db w))))
            (trace w)).
Proof.
  unfold init_dolfin_db, create_users, create_transactions, transaction_list. run_m.
  destruct w as [[us ts] tr]; simpl.
  destruct us, ts; reflexivity.
Qed.

Lemma init_dolfin_db_lists (w : world) :
  user_list (db (run init_dolfin_db w)) = user_list (db w) /\
  transaction_list (db (run init_dolfin_db w)) = transaction_list (db w).
Proof.
  unfold run. rewrite init_dolfin_db_spec. unfold user_list, transaction_list. simpl.
  destruct (users (db w)); auto.
Qed.

Lemma register_user_spec (E : environment) (e m f mi l p : sqlval) (w : world) :
  register_user E e m f mi l p w =
  match users (db w) with
  | None => (Ret (PStr (error_prefix ++ "no such table: users")%string), w)
  | Some t =>
      if forallb bindable [e; m; f; mi; l; p] then
        let top := Z.max (user_seq t) (max_u_id (user_rows t)) in
        if int64_max <=? top
        then (Ret (PStr (error_prefix ++ "database or disk is full")%string), w)
        else (Ret (PStr user_inserted_message),
              mk_world (mk_db (Some (mk_users
                                       (user_rows t ++
                                        [mk_user (top + 1) (varchar (sqlite E) e)
                                                 (varchar (sqlite E) m) (varchar (sqlite E) f)
                                                 (varchar (sqlite E) mi) (varchar (sqlite E) l)
                                                 (varchar (sqlite E) p) SNull])
                                       (top + 1)))
                              (transactions (db w)))
                       (trace w))
      else (Raise OverflowError, w)
  end.
Proof.
  unfold register_user, insert_user, varchar.
  destruct (forallb bindable [e; m; f; mi; l; p]); run_m;
    destruct w as [d tr]; simpl;
    (destruct (users d) as [t|]; simpl; [|reflexivity]).
  - destruct (int64_max <=? Z.max (user_seq t) (max_u_id (user_rows t))); reflexivity.
  - reflexivity.
Qed.

Lemma fetch_transactions_by_user_db (u : Z) (w : world) :
  run (fetch_transactions_by_user u) w = w.
Proof.
  unfold run. rewrite fetch_transactions_by_user_spec. reflexivity.
Qed.

Lemma update_misses (v : sqlval) (u : Z) (rows : list user_row) :
  existsb (fun r => u_id r =? u) rows = false ->
  map (fun r => if u_id r =? u then set_basiq_id v r else r) rows = rows.
Proof.
  induction rows as [|r rows IH]; simpl; [reflexivity|].
  destruct (u_id r =? u); simpl; [discriminate|].
  intros H. rewrite (IH H). reflexivity.
Qed.

Lemma update_keeps_keys (v : sqlval) (u : Z) (rows : list user_row) :
  map u_id (map (fun r => if u_id r =? u then set_basiq_id v r else r) rows) = map u_id rows.
Proof.
  induction rows as [|r rows IH]; simpl; [reflexivity|].
  rewrite IH. destruct (u_id r =? u); reflexivity.
Qed.

Lemma linked_lists (G : engine) (v : sqlval) (u : Z) (d : database) :
  map u_id (user_list (linked G v u d)) = map u_id (user_list d) /\
  transaction_list (linked G v u d) = transaction_list d.
Proof.
  unfold linked, user_list, transaction_list.
  destruct (users d) as [t|] eqn:Hu; simpl; rewrite ?Hu; auto using update_keeps_keys.
Qed.

Lemma linked_miss (G : engine) (v : sqlval) (u : Z) (d : database) :
  existsb (fun r => u_id r =? u) (user_list d) = false -> linked G v u d = d.
Proof.
  unfold linked, user_list. destruct d as [us ts]; simpl.
  destruct us as [[rows seq]|]; simpl; [|reflexivity].
  intros Hnone. rewrite (update_misses _ _ _ Hnone). reflexivity.
Qed.

Lemma rowcount_zero (u : Z) (rows : list user_row) :
  (Z.of_nat (List.length (filter (fun r => u_id r =? u) rows)) =? 0) =
  negb (existsb (fun r => u_id r =? u) rows).
Proof.
  induction rows as [|r rows IH]; simpl; [reflexivity|].
  destruct (u_id r =? u); simpl; [reflexivity | exact IH].
Qed.

Lemma register_basiq_id_spec (E : environment) (u : Z) (w : world) :
  register_basiq_id E u w =
  match answered u (db w) (user_info_answer u (db w)) with
  | Raise e => (caught (Raise e), w)
  | Ret user_info =>
      let call := CreateUserByDict user_info (access_token E) in
      let w1 := mk_world (db w) (trace w ++ [call]) in
      match respond E (trace w) call with
      | Raise e => (caught (Raise e), w1)
      | Ret reply =>
          match get_method reply "id" with
          | Raise e => (caught (Raise e), w1)
          | Ret new_basiq_id =>
              match users (db w) with
              | None => (Ret (PStr no_users_table), w1)
              | Some t =>
                  match bind_param new_basiq_id with
                  | Raise e => (caught (Raise e), w1)
                  | Ret v =>
                      (Ret (PStr (if existsb (fun r => u_id r =? u) (user_rows t)
                                  then basiq_updated_message u else not_found)),
                       mk_world (linked (sqlite E) v u (db w)) (trace w ++ [call]))
                  end
              end
          end
      end
  end.
Proof.
  unfold register_basiq_id, except_sqlite, bind. cbv beta.
  rewrite get_user_info_spec.
  unfold answered, update_basiq_id, bind_int, linked, caught, no_users_table. run_m.
  destruct w as [d tr]. cbn [db trace].
  destruct (users d) as [t|] eqn:Hu.
  - destruct (in_int64 u); [|reflexivity]. simpl.
    destruct (respond E tr _) as [reply|e]; simpl; [|destruct e; reflexivity].
    destruct (get_method reply "id") as [nid|e]; simpl; [|destruct e; reflexivity].
    rewrite ?Hu. simpl.
    destruct (bind_param nid) as [v|e]; simpl; [|destruct e; reflexivity].
    rewrite rowcount_zero.
    destruct (existsb (fun r => u_id r =? u) (user_rows t)); reflexivity.
  - simpl.
    destruct (respond E tr _) as [reply|e]; simpl; [|destruct e; reflexivity].
    destruct (get_method reply "id") as [nid|e]; simpl; [|destruct e; reflexivity].
    rewrite ?Hu. reflexivity.
Qed.

Lemma not_updated_message (u : Z) (o : outcome pyval) :
  (o = Ret (PStr not_found) \/ (exists msg, o = Ret (PStr (error_prefix ++ msg)%string)) \/
   exists e, o = Raise e) ->
  o <> Ret (PStr (basiq_updated_message u)).
Proof.
  unfold basiq_updated_message, not_found, error_prefix.
  intros [-> | [(msg & ->) | (e & ->)]] H; simpl in H; discriminate H.
Qed.

Lemma caught_not_updated (u : Z) (e : exn) :
  caught (Raise e) <> Ret (PStr (basiq_updated_message u)).
Proof.
  apply not_updated_message. destruct e; simpl; eauto.
Qed.

Lemma register_basiq_id_db (E : environment) (u : Z) (w : world) :
  db (run (register_basiq_id E u) w) = db w \/
  exists v,
    db (run (register_basiq_id E u) w) = linked (sqlite E) v u (db w) /\
    result (register_basiq_id E u) w = Ret (PStr (basiq_updated_message u)).
Proof.
  unfold result, run. rewrite register_basiq_id_spec.
  destruct (answered u (db w) _) as [info|e]; [|auto]. cbv zeta.
  destruct (respond E (trace w) _) as [reply|e]; [|auto].
  destruct (get_method reply "id") as [nid|e]; [|auto].
  destruct (users (db w)) as [t|] eqn:Hu; [|auto].
  destruct (bind_param nid) as [v|e]; [|auto].
  destruct (existsb (fun r => u_id r =? u) (user_rows t)) eqn:Hhit.
  - right. exists v. split; reflexivity.
  - left. cbn [db snd]. apply linked_miss. unfold user_list. rewrite Hu. exact Hhit.
Qed.

(** ** The lifecycle of [basiq_id] *)

Lemma step_users (E : environment) (o : op) (w : world) :
  writes_basiq_id o = false ->
  user_list (db (step E o w)) = user_list (db w) \/
  exists r, user_list (db (step E o w)) = user_list (db w) ++ [r] /\ basiq_id r = SNull.
Proof.
  intros Hop. destruct o; simpl in *; try discriminate.
  - left. apply init_dolfin_db_lists.
  - unfold run. rewrite register_user_spec. unfold user_list.
    destruct (users (db w)) as [t|] eqn:Hu; [|simpl; rewrite Hu; auto].
    destruct (forallb bindable _); [|simpl; rewrite Hu; auto].
    cbv zeta. destruct (int64_max <=? _); simpl; [rewrite Hu; auto|].
    right. eexists. split; reflexivity.
  - left. unfold run. rewrite get_basiq_id_spec. reflexivity.
  - left. unfold run. rewrite get_user_info_spec. reflexivity.
  - left. rewrite link_bank_account_db. reflexivity.
  - left. unfold run. rewrite request_transactions_df_spec.
    destruct (answered _ _ _); reflexivity.
  - left. unfold run, user_list. rewrite cache_transactions_spec.
    destruct (insert_all (sqlite E) user_id tran_data (db w)) as [d'|e] eqn:Hall.
    + apply insert_all_stores in Hall as (Hu & _). simpl. rewrite Hu. reflexivity.
    + destruct e; reflexivity.
  - left. rewrite fetch_transactions_by_user_db. reflexivity.
  - left. unfold run, user_list. rewrite clear_transactions_spec.
    destruct (transactions (db w)); reflexivity.
Qed.

(** C7 (lifecycle of the provider account id).  [register_user], when it
    inserts, appends a row whose [basiq_id] is NULL and that carries the six
    given fields, as the VARCHAR columns store them.  Every operation of the
    module other than [register_basiq_id] leaves the rows of [users] as they
    are or appends one row whose [basiq_id] is NULL, so it writes no
    [basiq_id]; and a [register_basiq_id] that does not report success
    leaves the file as it was.  A [basiq_id] is therefore NULL until a
    [register_basiq_id] completes. *)
Theorem basiq_id_lifecycle (E : environment) (w : world) :
  (forall e m f mi l p,
     result (register_user E e m f mi l p) w = Ret (PStr user_inserted_message) ->
     exists k,
       user_list (db (run (register_user E e m f mi l p) w)) =
         user_list (db w) ++
         [mk_user k (varchar (sqlite E) e) (varchar (sqlite E) m) (varchar (sqlite E) f)
                  (varchar (sqlite E) mi) (varchar (sqlite E) l) (varchar (sqlite E) p)
                  SNull]) /\
  (forall o,
     writes_basiq_id o = false ->
     user_list (db (step E o w)) = user_list (db w) \/
     exists r, user_list (db (step E o w)) = user_list (db w) ++ [r] /\ basiq_id r = SNull) /\
  (forall u,
     result (register_basiq_id E u) w <> Ret (PStr (basiq_updated_message u)) ->
     db (run (register_basiq_id E u) w) = db w).
Proof.
  split; [|split].
  - intros e m f mi l p. unfold result, run. rewrite register_user_spec.
    unfold user_list.
    destruct (users (db w)) as [t|]; [|simpl; discriminate].
    destruct (forallb bindable _); [|simpl; discriminate].
    cbv zeta. destruct (int64_max <=? _); simpl; [discriminate|].
    intros _. eexists. reflexivity.
  - intros o. apply step_users.
  - intros u Hfail.
    destruct (register_basiq_id_db E u w) as [Hsame | (v & _ & Hok)];
      [exact Hsame | contradiction].
Qed.

Lemma basiq_id_lifecycle_witness :
  result (register_user lenient (SText "a@x.com") (SText "000") (SText "A") (SText "")
                        (SText "B") (SText "h")) (run init_dolfin_db fresh)
    = Ret (PStr user_inserted_message) /\
  (exists k,
     user_list (db one_user) =
       [mk_user k (SText "a@x.com") (SText "000") (SText "A") (SText "") (SText "B")
                (SText "h") SNull]) /\
  writes_basiq_id (CacheTransactions 1 [sample_row]) = false /\
  (user_list (db (step lenient (CacheTransactions 1 [sample_row]) one_user)) =
     user_list (db one_user) \/
   exists r,
     user_list (db (step lenient (CacheTransactions 1 [sample_row]) one_user)) =
       user_list (db one_user) ++ [r] /\ basiq_id r = SNull) /\
  result (register_basiq_id lenient 5) one_user <> Ret (PStr (basiq_updated_message 5)) /\
  db (run (register_basiq_id lenient 5) one_user) = db one_user.
Proof.
  assert (Hfail : result (register_basiq_id lenient 5) one_user
                  <> Ret (PStr (basiq_updated_message 5))).
  { vm_compute. discriminate. }
  split; [reflexivity|].
  split; [exact (proj1 (basiq_id_lifecycle lenient (run init_dolfin_db fresh))
                   (SText "a@x.com") (SText "000") (SText "A") (SText "") (SText "B")
                   (SText "h") eq_refl)|].
  split; [reflexivity|].
  split; [exact (proj1 (proj2 (basiq_id_lifecycle lenient one_user))
                   (CacheTransactions 1 [sample_row]) eq_refl)|].
  split; [exact Hfail|].
  exact (proj2 (proj2 (basiq_id_lifecycle lenient one_user)) 5 Hfail).
Defined.

(** ** Referential integrity *)

Lemma delete_user_spec (u : Z) (w : world) :
  delete_user u w =
  match users (db w) with
  | None => (Ret (PStr (error_prefix ++ "no such table: users")%string), w)
  | Some t =>
      if in_int64 u then
        (Ret PNone,
         mk_world (mk_db (Some (mk_users (filter (fun r => negb (u_id r =? u)) (user_rows t))
                                         (user_seq t)))
                         (option_map (filter (fun x => negb (trans_u_id x =? u)))
                                     (transactions (db w))))
                  (trace w))
      else (Raise OverflowError, w)
  end.
Proof.
  unfold delete_user, delete_from_users, bind_int. run_m.
  destruct w as [d tr]; simpl.
  destruct (users d); [|reflexivity].
  destruct (in_int64 u); reflexivity.
Qed.

Lemma existsb_keys (k : Z) (us : list user_row) :
  existsb (fun r => u_id r =? k) us = existsb (fun x => x =? k) (map u_id us).
Proof.
  induction us as [|r us IH]; simpl; [reflexivity|]. rewrite IH. reflexivity.
Qed.

Lemma refs_ok_keys (us us' : list user_row) (ts : list transaction_row) :
  map u_id us = map u_id us' -> refs_ok us ts = refs_ok us' ts.
Proof.
  intros Hk. unfold refs_ok.
  induction ts as [|t ts IH]; simpl; [reflexivity|].
  rewrite IH, !existsb_keys, Hk. reflexivity.
Qed.

Lemma refs_ok_more_users (us : list user_row) (r : user_row) (ts : list transaction_row) :
  refs_ok us ts = true -> refs_ok (us ++ [r]) ts = true.
Proof.
  unfold refs_ok. rewrite !forallb_forall. intros H t Ht.
  rewrite existsb_app, (H t Ht). reflexivity.
Qed.

Lemma refs_ok_owned_by (G : engine) (us : list user_row) (u : Z) (rows : list (txn sqlval)) :
  forallb (fun _ => existsb (fun r => u_id r =? u) us) rows = true ->
  refs_ok us (owned_by G u rows) = true.
Proof.
  unfold refs_ok, owned_by.
  induction rows as [|row rows IH]; [reflexivity|].
  cbn [map forallb stored_row trans_u_id].
  intros H. apply andb_true_iff in H as (Hrow & Hrest).
  rewrite Hrow, (IH Hrest). reflexivity.
Qed.

Lemma insert_all_checks_owner (G : engine) (u : Z) (rows : list (txn sqlval))
    (d d' : database) :
  insert_all G u rows d = Ret d' ->
  forallb (fun _ => existsb (fun r => u_id r =? u) (user_list d)) rows = true.
Proof.
  revert d. induction rows as [|row rest IH]; simpl; intros d H; [reflexivity|].
  destruct (insert_transaction G row u true d) as [[x d1]|e] eqn:Hrow; [|discriminate].
  assert (Hsame : user_list d1 = user_list d).
  { unfold user_list. apply insert_transaction_stores in Hrow as (-> & _). reflexivity. }
  specialize (IH d1 H). rewrite Hsame in IH. rewrite IH, andb_true_r.
  unfold insert_transaction, bind_row, bind_int, user_list in *.
  destruct (transactions d); [|discriminate].
  destruct (users d) as [t|]; [|discriminate].
  destruct (forallb bindable (cells row)); [|discriminate].
  destruct (in_int64 u); [|discriminate].
  destruct (id_taken _ _ _); [discriminate|].
  destruct (existsb _ (user_rows t)); [reflexivity | discriminate].
Qed.

Lemma refs_ok_delete (u : Z) (us : list user_row) (ts : list transaction_row) :
  refs_ok us ts = true ->
  refs_ok (filter (fun r => negb (u_id r =? u)) us)
          (filter (fun x => negb (trans_u_id x =? u)) ts) = true.
Proof.
  unfold refs_ok. rewrite !forallb_forall. intros H t Ht.
  apply filter_In in Ht as (Ht & Hother).
  specialize (H t Ht). apply existsb_exists in H as (r & Hr & Hkey).
  apply existsb_exists. exists r. split; [|exact Hkey].
  apply filter_In. split; [exact Hr|].
  apply Z.eqb_eq in Hkey. rewrite Hkey. exact Hother.
Qed.

Lemma filter_complement (u : Z) (ts : list transaction_row) :
  filter (fun t => trans_u_id t =? u) (filter (fun x => negb (trans_u_id x =? u)) ts) = [].
Proof.
  induction ts as [|t ts IH]; simpl; [reflexivity|].
  destruct (trans_u_id t =? u) eqn:Ht; simpl; [exact IH|].
  rewrite Ht. exact IH.
Qed.

Lemma find_after_delete (u : Z) (us : list user_row) :
  find_user u (filter (fun r => negb (u_id r =? u)) us) = None.
Proof.
  unfold find_user. destruct (in_int64 u); [|reflexivity].
  induction us as [|r us IH]; simpl; [reflexivity|].
  destruct (u_id r =? u) eqn:Hr; simpl; [exact IH|].
  rewrite Hr. exact IH.
Qed.

Lemma step_references (E : environment) (o : op) (w : world) :
  references_ok (db w) = true -> references_ok (db (step E o w)) = true.
Proof.
  unfold references_ok. intros Hok. destruct o; simpl.
  - destruct (init_dolfin_db_lists w) as (-> & ->). exact Hok.
  - destruct (step_users E (RegisterUser email0 mobile0 first_name0 middle_name0 last_name0
                                         password0) w eq_refl) as [Hu | (r & Hu & _)];
      simpl in Hu; rewrite Hu;
      (replace (transaction_list (db (run (register_user E email0 mobile0 first_name0
                                             middle_name0 last_name0 password0) w)))
         with (transaction_list (db w));
       [| unfold run, transaction_list; rewrite register_user_spec;
          destruct (users (db w)); [destruct (forallb bindable _);
                                    [cbv zeta; destruct (int64_max <=? _)|]|];
          reflexivity]).
    + exact Hok.
    + apply refs_ok_more_users. exact Hok.
  - unfold run. rewrite get_basiq_id_spec. exact Hok.
  - unfold run. rewrite get_user_info_spec. exact Hok.
  - destruct (register_basiq_id_db E user_id w) as [-> | (v & -> & _)]; [exact Hok|].
    destruct (linked_lists (sqlite E) v user_id (db w)) as (Hk & ->).
    rewrite (refs_ok_keys _ _ _ Hk). exact Hok.
  - rewrite link_bank_account_db. exact Hok.
  - unfold run. rewrite request_transactions_df_spec.
    destruct (answered _ _ _); exact Hok.
  - unfold run. rewrite cache_transactions_spec.
    destruct (insert_all (sqlite E) user_id tran_data (db w)) as [d'|e] eqn:Hall.
    + pose proof (insert_all_checks_owner _ _ _ _ _ Hall) as Howner.
      apply insert_all_stores in Hall as (Hu & Hl). simpl.
      unfold user_list in *. rewrite Hl, Hu. unfold refs_ok. rewrite forallb_app.
      apply andb_true_iff. split; [exact Hok|].
      apply refs_ok_owned_by. exact Howner.
    + destruct e; exact Hok.
  - rewrite fetch_transactions_by_user_db. exact Hok.
  - unfold run. rewrite clear_transactions_spec.
    destruct (transactions (db w)) eqn:Ht; simpl; [reflexivity|].
    unfold transaction_list in *. rewrite Ht in *. exact Hok.
Qed.

Lemma delete_user_references (u : Z) (w : world) :
  references_ok (db w) = true -> references_ok (db (run (delete_user u) w)) = true.
Proof.
  unfold references_ok, run. rewrite delete_user_spec. intros Hok.
  unfold user_list, transaction_list in *.
  destruct (users (db w)) as [t|] eqn:Hu; simpl; [|rewrite Hu; exact Hok].
  destruct (in_int64 u); simpl; [|rewrite Hu; exact Hok].
  destruct (transactions (db w)) as [ts|]; simpl; [|reflexivity].
  apply refs_ok_delete. exact Hok.
Qed.

Lemma owners_in_range_owned_by (G : engine) (u : Z) (rows : list (txn sqlval)) :
  (rows <> [] -> in_int64 u = true) ->
  forallb (fun t => in_int64 (trans_u_id t)) (owned_by G u rows) = true.
Proof.
  intros Hu. destruct rows as [|row rows]; [reflexivity|].
  assert (Hrange : in_int64 u = true) by (apply Hu; discriminate).
  clear Hu. unfold owned_by. generalize (row :: rows). intros l.
  induction l as [|x l IH]; [reflexivity|].
  cbn [map forallb stored_row trans_u_id]. rewrite Hrange, IH. reflexivity.
Qed.

Lemma insert_all_binds_owner (G : engine) (u : Z) (rows : list (txn sqlval))
    (d d' : database) :
  insert_all G u rows d = Ret d' -> rows <> [] -> in_int64 u = true.
Proof.
  destruct rows as [|row rest]; [intros _ H; contradiction H; reflexivity|].
  simpl. intros H _.
  destruct (insert_transaction G row u true d) as [[x d1]|e] eqn:Hrow; [|discriminate].
  apply insert_transaction_stores in Hrow as (_ & Hfits & _).
  unfold binds in Hfits. apply andb_true_iff in Hfits as (Hu & _). exact Hu.
Qed.

Lemma step_owners (E : environment) (o : op) (w : world) :
  owners_in_range (db w) = true -> owners_in_range (db (step E o w)) = true.
Proof.
  unfold owners_in_range. intros Hok. destruct o; simpl.
  - destruct (init_dolfin_db_lists w) as (_ & ->). exact Hok.
  - unfold run, transaction_list. rewrite register_user_spec.
    destruct (users (db w)); [destruct (forallb bindable _);
                              [cbv zeta; destruct (int64_max <=? _)|]|];
      exact Hok.
  - unfold run. rewrite get_basiq_id_spec. exact Hok.
  - unfold run. rewrite get_user_info_spec. exact Hok.
  - destruct (register_basiq_id_db E user_id w) as [-> | (v & -> & _)]; [exact Hok|].
    destruct (linked_lists (sqlite E) v user_id (db w)) as (_ & ->). exact Hok.
  - rewrite link_bank_account_db. exact Hok.
  - unfold run. rewrite request_transactions_df_spec.
    destruct (answered _ _ _); exact Hok.
  - unfold run. rewrite cache_transactions_spec.
    destruct (insert_all (sqlite E) user_id tran_data (db w)) as [d'|e] eqn:Hall.
    + pose proof (insert_all_binds_owner _ _ _ _ _ Hall) as Hu.
      apply insert_all_stores in Hall as (_ & Hl). simpl.
      rewrite Hl, forallb_app, Hok. simpl.
      apply owners_in_range_owned_by. exact Hu.
    + destruct e; exact Hok.
  - rewrite fetch_transactions_by_user_db. exact Hok.
  - unfold run. rewrite clear_transactions_spec.
    destruct (transactions (db w)) eqn:Ht; simpl; [reflexivity|].
    unfold transaction_list in *. rewrite Ht in *. exact Hok.
Qed.

Lemma delete_user_owners (u : Z) (w : world) :
  owners_in_range (db w) = true -> owners_in_range (db (run (delete_user u) w)) = true.
Proof.
  unfold owners_in_range, run. rewrite delete_user_spec. intros Hok.
  unfold transaction_list in *.
  destruct (users (db w)) as [t|]; simpl; [|exact Hok].
  destruct (in_int64 u); simpl; [|exact Hok].
  destruct (transactions (db w)) as [ts|]; simpl; [|reflexivity].
  rewrite forallb_forall in *. intros x Hx. apply filter_In in Hx as (Hx & _). auto.
Qed.

Lemma reachable_references (E : environment) (w : world) :
  reachable E w -> references_ok (db w) = true /\ owners_in_range (db w) = true.
Proof.
  induction 1 as [|o w _ (IHr & IHo)|u w _ (IHr & IHo)].
  - split; reflexivity.
  - split; [apply step_references | apply step_owners]; assumption.
  - split; [apply delete_user_references | apply delete_user_owners]; assumption.
Qed.

Lemma no_users_no_transactions (d : database) :
  references_ok d = true -> users d = None -> transaction_list d = [].
Proof.
  unfold references_ok, refs_ok, user_list. intros Hok Hnone. rewrite Hnone in Hok.
  destruct (transaction_list d) as [|t ts]; [reflexivity | discriminate].
Qed.

Lemma owned_out_of_range (u : Z) (d : database) :
  owners_in_range d = true -> in_int64 u = false -> owned u d = [].
Proof.
  unfold owners_in_range, owned. intros Hok Hu.
  induction (transaction_list d) as [|t ts IH]; [reflexivity|].
  simpl in *. apply andb_true_iff in Hok as (Ht & Hts).
  destruct (trans_u_id t =? u) eqn:Heq; [|exact (IH Hts)].
  apply Z.eqb_eq in Heq. rewrite Heq, Hu in Ht. discriminate Ht.
Qed.

(** C3 (cascade integrity).  In every state the module's operations and
    user deletions lead to, every transaction row references an existing
    user; and deleting a user [u], whatever the number of transactions
    cached for it, leaves no transaction row whose [trans_u_id] is [u], no
    user row with that key, and the references of the remaining rows
    intact. *)
Theorem cascade_integrity (E : environment) (w : world) (Hreach : reachable E w) :
  references_ok (db w) = true /\
  forall u,
    owned u (db (run (delete_user u) w)) = [] /\
    find_user u (user_list (db (run (delete_user u) w))) = None /\
    references_ok (db (run (delete_user u) w)) = true.
Proof.
  pose proof (reachable_references E w Hreach) as (Hok & Hrange).
  split; [exact Hok|]. intros u.
  split; [|split].
  - unfold run. rewrite delete_user_spec.
    destruct (users (db w)) as [t|] eqn:Hu; simpl.
    + destruct (in_int64 u) eqn:Hin; simpl.
      * unfold owned, transaction_list. simpl.
        destruct (transactions (db w)) as [ts|]; simpl;
          [apply filter_complement | reflexivity].
      * apply owned_out_of_range; assumption.
    + unfold owned. rewrite (no_users_no_transactions _ Hok Hu). reflexivity.
  - unfold run. rewrite delete_user_spec. unfold user_list.
    destruct (users (db w)) as [t|] eqn:Hu; simpl;
      [|rewrite Hu; unfold find_user; destruct (in_int64 u); reflexivity].
    destruct (in_int64 u) eqn:Hin; simpl; [apply find_after_delete|].
    rewrite Hu. unfold find_user. rewrite Hin. reflexivity.
  - apply delete_user_references. exact Hok.
Qed.

Lemma cascade_integrity_witness :
  reachable lenient two_cached /\
  owned 1 (db two_cached) = [sample_stored; other_stored] /\
  references_ok (db two_cached) = true /\
  owned 1 (db (run (delete_user 1) two_cached)) = [] /\
  find_user 1 (user_list (db (run (delete_user 1) two_cached))) = None.
Proof.
  assert (Hreach : reachable lenient two_cached).
  { unfold two_cached, one_user.
    apply reach_step.
    apply (reach_step lenient
             (RegisterUser (SText "a@x.com") (SText "000") (SText "A") (SText "") (SText "B")
                           (SText "h"))).
    apply (reach_step lenient InitDolfinDb).
    apply reach_fresh. }
  split; [exact Hreach|]. split; [reflexivity|].
  destruct (cascade_integrity lenient two_cached Hreach) as (Hok & Hdelete).
  destruct (Hdelete 1) as (Hnone & Hgone & _).
  auto.
Defined.

(** * Further properties of the operations *)

(** ** Creating the schema *)

(** X1.  [init_dolfin_db] is idempotent.  Whatever tables and rows the
    database file holds (the file itself being one the connection can open
    and write, as everywhere in this development), [init_dolfin_db] returns
    its success message, afterwards both tables exist, the rows and the key
    counter that were there are kept, nothing is sent to the provider, a
    second run changes nothing, and on a file that already has both tables
    it changes nothing at all. *)
Theorem init_dolfin_db_idempotent (w : world) :
  result init_dolfin_db w = Ret (PStr init_message) /\
  (exists t, users (db (run init_dolfin_db w)) = Some t /\
             user_rows t = user_list (db w) /\
             (forall t0, users (db w) = Some t0 -> t = t0)) /\
  transactions (db (run init_dolfin_db w)) = Some (transaction_list (db w)) /\
  trace (run init_dolfin_db w) = trace w /\
  run init_dolfin_db (run init_dolfin_db w) = run init_dolfin_db w /\
  (forall t0 ts, users (db w) = Some t0 -> transactions (db w) = Some ts ->
     run init_dolfin_db w = w).
Proof.
  unfold result, run. rewrite !init_dolfin_db_spec. simpl.
  split; [reflexivity|]. split; [|split; [reflexivity|split; [reflexivity|split]]].
  - eexists. split; [reflexivity|]. unfold user_list.
    destruct (users (db w)) as [t0|]; simpl; split; try reflexivity.
    + intros t1 H. inversion H. reflexivity.
    + discriminate.
  - reflexivity.
  - intros t0 ts Hu Ht. unfold transaction_list. rewrite Hu, Ht.
    destruct w as [[us tt] tr]; simpl in *. subst. reflexivity.
Qed.

Lemma init_dolfin_db_idempotent_witness :
  users (db one_user) = Some (mk_users (user_list (db one_user)) 1) /\
  transactions (db one_user) = Some [] /\
  run init_dolfin_db one_user = one_user /\
  run init_dolfin_db (run init_dolfin_db fresh) = run init_dolfin_db fresh.
Proof.
  split; [reflexivity|]. split; [reflexivity|].
  destruct (init_dolfin_db_idempotent one_user) as (_ & _ & _ & _ & _ & Hsame).
  destruct (init_dolfin_db_idempotent fresh) as (_ & _ & _ & _ & Htwice & _).
  split; [|exact Htwice].
  exact (Hsame _ _ eq_refl eq_refl).
Defined.

(** ** Registering a user *)


Lemma max_u_id_bound (rows : list user_row) (r : user_row) :
  In r rows -> u_id r <= max_u_id rows.
Proof.
  induction rows as [|r' rows IH]; simpl; [contradiction|].
  intros [-> | Hin]; [lia|]. specialize (IH Hin). lia.
Qed.







(** ** The keys of [users] *)

Lemma distinct_snoc (l : list Z) (k : Z) :
  distinct l = true -> existsb (Z.eqb k) l = false -> distinct (l ++ [k]) = true.
Proof.
  induction l as [|k' l IH]; simpl; [reflexivity|].
  intros Hd Hk. apply andb_true_iff in Hd as (Hk' & Hd).
  apply orb_false_iff in Hk as (Hne & Hk).
  rewrite existsb_app. simpl. rewrite (IH Hd Hk), orb_false_r, andb_true_r.
  apply negb_true_iff in Hk'. rewrite Hk'. simpl.
  rewrite Z.eqb_sym, Hne. reflexivity.
Qed.

Lemma keys_ok_same_users (d d' : database) :
  users d' = users d -> keys_ok d' = keys_ok d.
Proof. unfold keys_ok. intros ->. reflexivity. Qed.

Lemma keys_ok_linked (G : engine) (v : sqlval) (u : Z) (d : database) :
  keys_ok (linked G v u d) = keys_ok d.
Proof.
  unfold keys_ok, linked.
  destruct (users d) as [t|] eqn:Hu; simpl; [|rewrite Hu; reflexivity].
  rewrite update_keeps_keys. reflexivity.
Qed.

Lemma keys_ok_register (e m f mi l p : sqlval) (t : users_table)
    (ts : option (list transaction_row)) :
  distinct (map u_id (user_rows t)) = true ->
  keys_ok (mk_db (Some (mk_users (user_rows t ++ [mk_user (next_u_id t) e m f mi l p SNull])
                                 (next_u_id t))) ts) = true.
Proof.
  intros Hd. unfold keys_ok. simpl. rewrite map_app. simpl.
  assert (Hlt : forall k, In k (map u_id (user_rows t)) -> k < next_u_id t).
  { intros k Hin. apply in_map_iff in Hin as (r & <- & Hr).
    apply max_u_id_bound in Hr. unfold next_u_id. lia. }
  apply andb_true_iff. split.
  - apply distinct_snoc; [exact Hd|].
    destruct (existsb (Z.eqb (next_u_id t)) (map u_id (user_rows t))) eqn:Hex; [|reflexivity].
    apply existsb_exists in Hex as (k & Hin & Heq). apply Z.eqb_eq in Heq.
    specialize (Hlt k Hin). lia.
  - rewrite forallb_app. simpl. rewrite Z.leb_refl, andb_true_r.
    apply forallb_forall. intros k Hin. specialize (Hlt k Hin). apply Z.leb_le. lia.
Qed.

(** X3.  Every operation of the module keeps the keys of [users] pairwise
    distinct and below the AUTOINCREMENT counter: a user id never comes to
    name two rows. *)
Theorem user_keys_invariant (E : environment) (o : op) (w : world)
    (Hkeys : keys_ok (db w) = true) :
  keys_ok (db (step E o w)) = true.
Proof.
  destruct o; simpl.
  - unfold run. rewrite init_dolfin_db_spec. unfold keys_ok in *. simpl.
    destruct (users (db w)); [exact Hkeys | reflexivity].
  - unfold run. rewrite register_user_spec.
    destruct (users (db w)) as [t|] eqn:Hu; [|exact Hkeys].
    destruct (forallb bindable _); [|exact Hkeys].
    cbv zeta. destruct (int64_max <=? _); [exact Hkeys|]. cbn [snd db].
    apply keys_ok_register. unfold keys_ok in Hkeys. rewrite Hu in Hkeys.
    apply andb_true_iff in Hkeys as (Hd & _). exact Hd.
  - unfold run. rewrite get_basiq_id_spec. exact Hkeys.
  - unfold run. rewrite get_user_info_spec. exact Hkeys.
  - destruct (register_basiq_id_db E user_id w) as [-> | (v & -> & _)]; [exact Hkeys|].
    rewrite keys_ok_linked. exact Hkeys.
  - rewrite link_bank_account_db. exact Hkeys.
  - unfold run. rewrite request_transactions_df_spec.
    destruct (answered _ _ _); exact Hkeys.
  - unfold run. rewrite cache_transactions_spec.
    destruct (insert_all (sqlite E) user_id tran_data (db w)) as [d'|e] eqn:Hall.
    + apply insert_all_stores in Hall as (Hu & _). simpl.
      rewrite (keys_ok_same_users _ _ Hu). exact Hkeys.
    + destruct e; exact Hkeys.
  - rewrite fetch_transactions_by_user_db. exact Hkeys.
  - unfold run. rewrite clear_transactions_spec.
    destruct (transactions (db w)); exact Hkeys.
Qed.

Lemma user_keys_invariant_witness :
  keys_ok (db one_user) = true /\
  keys_ok (db (step lenient (RegisterUser (SText "c@y.org") SNull (SText "C") SNull (SText "D")
                                          (SText "pw")) one_user)) = true.
Proof.
  split; [reflexivity|].
  exact (user_keys_invariant lenient _ one_user eq_refl).
Defined.

(** ** Linking a user to the provider *)

Lemma find_user_updated (v : sqlval) (u : Z) (rows : list user_row) (r : user_row) :
  find_user u rows = Some r ->
  find_user u (map (fun r => if u_id r =? u then set_basiq_id v r else r) rows) =
    Some (set_basiq_id v r).
Proof.
  unfold find_user. destruct (in_int64 u); [|discriminate].
  induction rows as [|r' rows IH]; simpl; [discriminate|].
  destruct (u_id r' =? u) eqn:Hr; simpl.
  - rewrite Hr. intros H. inversion H. reflexivity.
  - rewrite Hr. exact IH.
Qed.

Lemma find_user_untouched (v : sqlval) (u u' : Z) (rows : list user_row) :
  u' <> u ->
  find_user u' (map (fun r => if u_id r =? u then set_basiq_id v r else r) rows) =
    find_user u' rows.
Proof.
  unfold find_user. intros Hne. destruct (in_int64 u'); [|reflexivity].
  induction rows as [|r rows IH]; simpl; [reflexivity|].
  destruct (u_id r =? u) eqn:Hr; simpl.
  - apply Z.eqb_eq in Hr.
    assert (Hr' : (u_id r =? u') = false) by (apply Z.eqb_neq; lia).
    rewrite Hr'. exact IH.
  - destruct (u_id r =? u'); [reflexivity | exact IH].
Qed.

(** X4.  Round trip of [register_basiq_id].  For an existing user, whatever
    its [basiq_id] was before, when the provider's reply is an object whose
    [id] SQLite can bind: the provider was asked once, with the user's five
    profile fields and the token; the call reports success; [get_basiq_id]
    then returns the provider's id as the VARCHAR column holds it, so an id
    that is a number comes back as its text; the user's other columns, every
    other user and the transactions are as before. *)
Theorem register_basiq_id_links (E : environment) (u : Z) (w : world) (t : users_table)
    (r : user_row) (reply new_basiq_id : pyval) (v : sqlval)
    (Hstore : users (db w) = Some t)
    (Huser : find_user u (user_rows t) = Some r)
    (Hreply : respond E (trace w)
                (CreateUserByDict (user_info_answer u (db w)) (access_token E)) = Ret reply)
    (Hid : get_method reply "id" = Ret new_basiq_id)
    (Hbind : bind_param new_basiq_id = Ret v) :
  result (register_basiq_id E u) w = Ret (PStr (basiq_updated_message u)) /\
  result (get_basiq_id u) (run (register_basiq_id E u) w) =
    Ret (py_of_sql (text_affinity (sqlite E) v)) /\
  find_user u (user_list (db (run (register_basiq_id E u) w))) =
    Some (set_basiq_id (text_affinity (sqlite E) v) r) /\
  (forall u', u' <> u ->
     find_user u' (user_list (db (run (register_basiq_id E u) w))) =
     find_user u' (user_rows t)) /\
  transactions (db (run (register_basiq_id E u) w)) = transactions (db w) /\
  trace (run (register_basiq_id E u) w) =
    trace w ++ [CreateUserByDict
                  (PDict [("email", py_of_sql (email r)); ("mobile", py_of_sql (mobile r));
                          ("firstName", py_of_sql (first_name r));
                          ("middleName", py_of_sql (middle_name r));
                          ("lastName", py_of_sql (last_name r))])
                  (access_token E)].
Proof.
  pose proof (find_user_in_range _ _ _ Huser) as Hrange.
  assert (Hinfo : user_info_answer u (db w) =
                  PDict [("email", py_of_sql (email r)); ("mobile", py_of_sql (mobile r));
                         ("firstName", py_of_sql (first_name r));
                         ("middleName", py_of_sql (middle_name r));
                         ("lastName", py_of_sql (last_name r))]).
  { unfold user_info_answer. rewrite Hstore, Huser. reflexivity. }
  unfold result, run. rewrite register_basiq_id_spec. unfold answered.
  rewrite Hstore, Hrange. cbv zeta.
  rewrite Hreply, Hid, Hbind, (find_user_existsb _ _ _ Huser). cbn [fst snd].
  rewrite get_basiq_id_spec. unfold basiq_answer, answered, linked, user_list.
  rewrite Hstore. cbn [db users user_rows transactions trace fst snd]. rewrite Hrange.
  rewrite (find_user_updated (text_affinity (sqlite E) v) u _ r Huser).
  cbn [fst set_basiq_id basiq_id].
  rewrite Hinfo.
  split; [reflexivity|]. split; [reflexivity|]. split; [reflexivity|].
  split; [|split; reflexivity].
  intros u' Hne. apply find_user_untouched. exact Hne.
Qed.

Lemma register_basiq_id_links_witness :
  users (db one_user) = Some (mk_users (user_list (db one_user)) 1) /\
  result (register_basiq_id lenient 1) one_user =
    Ret (PStr "basiq_id updated successfully for user ID 1") /\
  result (get_basiq_id 1) linked_user = Ret (PStr "basiq-1").
Proof.
  split; [reflexivity|].
  destruct (register_basiq_id_links lenient 1 one_user
              (mk_users (user_list (db one_user)) 1)
              (mk_user 1 (SText "a@x.com") (SText "000") (SText "A") (SText "")
                       (SText "B") (SText "h") SNull)
              (PDict [("id", PStr "basiq-1")]) (PStr "basiq-1") (SText "basiq-1")
              eq_refl eq_refl eq_refl eq_refl eq_refl) as (Hok & Hget & _).
  split; [exact Hok | exact Hget].
Defined.

(** X5.  A reply without an [id].  For an existing user, when the provider's
    reply is an object that has no [id] entry, [register_basiq_id] still
    reports success, and the user's [basiq_id] is NULL afterwards, also when
    it held an id before. *)
Theorem register_basiq_id_missing_id (E : environment) (u : Z) (w : world) (t : users_table)
    (r : user_row) (d : list (string * pyval))
    (Hstore : users (db w) = Some t)
    (Huser : find_user u (user_rows t) = Some r)
    (Hreply : respond E (trace w)
                (CreateUserByDict (user_info_answer u (db w)) (access_token E)) = Ret (PDict d))
    (Hmissing : dict_lookup "id" d = None) :
  result (register_basiq_id E u) w = Ret (PStr (basiq_updated_message u)) /\
  result (get_basiq_id u) (run (register_basiq_id E u) w) = Ret PNone /\
  find_user u (user_list (db (run (register_basiq_id E u) w))) = Some (set_basiq_id SNull r).
Proof.
  pose proof (find_user_in_range _ _ _ Huser) as Hrange.
  unfold result, run. rewrite register_basiq_id_spec. unfold answered.
  rewrite Hstore, Hrange. cbv zeta.
  rewrite Hreply. unfold get_method. rewrite Hmissing. cbn [bind_param].
  rewrite (find_user_existsb _ _ _ Huser). cbn [fst snd].
  rewrite get_basiq_id_spec. unfold basiq_answer, answered, linked, user_list.
  rewrite Hstore. cbn [db users user_rows fst snd text_affinity]. rewrite Hrange.
  rewrite (find_user_updated SNull u _ r Huser). simpl. auto.
Qed.

Lemma register_basiq_id_missing_id_witness :
  result (get_basiq_id 1) linked_user = Ret (PStr "basiq-1") /\
  result (register_basiq_id empty_replies 1) linked_user =
    Ret (PStr "basiq_id updated successfully for user ID 1") /\
  result (get_basiq_id 1) (run (register_basiq_id empty_replies 1) linked_user) = Ret PNone.
Proof.
  split; [reflexivity|].
  destruct (register_basiq_id_missing_id empty_replies 1 linked_user
              (mk_users (user_list (db linked_user)) 1)
              (mk_user 1 (SText "a@x.com") (SText "000") (SText "A") (SText "")
                       (SText "B") (SText "h") (SText "basiq-1"))
              [] eq_refl eq_refl eq_refl eq_refl) as (Hok & Hget & _).
  split; [exact Hok | exact Hget].
Defined.

(** X6.  [register_basiq_id] for an id without a user row.  For an id within
    SQLite's integers the module does not stop at the missing user: it still
    calls the provider, passing the not-found message of [get_user_info] in
    place of the profile.  The call then never reports success and leaves
    the store as it was; when the reply carries an id SQLite can bind, the
    answer is the not-found message.  For an id outside the 64-bit integers
    the [OverflowError] of [get_user_info] reaches the caller and the
    provider is not called. *)
Theorem register_basiq_id_unknown_user (E : environment) (u : Z) (w : world) (t : users_table)
    (Hstore : users (db w) = Some t)
    (Habsent : find_user u (user_rows t) = None) :
  (in_int64 u = true ->
   trace (run (register_basiq_id E u) w) =
     trace w ++ [CreateUserByDict (PStr not_found) (access_token E)] /\
   (forall reply new_basiq_id v,
      respond E (trace w) (CreateUserByDict (PStr not_found) (access_token E)) = Ret reply ->
      get_method reply "id" = Ret new_basiq_id ->
      bind_param new_basiq_id = Ret v ->
      result (register_basiq_id E u) w = Ret (PStr not_found))) /\
  db (run (register_basiq_id E u) w) = db w /\
  result (register_basiq_id E u) w <> Ret (PStr (basiq_updated_message u)) /\
  (in_int64 u = false ->
   result (register_basiq_id E u) w = Raise OverflowError /\
   run (register_basiq_id E u) w = w).
Proof.
  assert (Hinfo : user_info_answer u (db w) = PStr not_found).
  { unfold user_info_answer. rewrite Hstore, Habsent. reflexivity. }
  unfold result, run. rewrite register_basiq_id_spec, Hinfo. unfold answered.
  rewrite Hstore.
  destruct (in_int64 u) eqn:Hrange.
  - assert (Hmiss : forall v, linked (sqlite E) v u (db w) = db w).
    { intros v. apply linked_miss. unfold user_list. rewrite Hstore.
      apply find_user_none_existsb; assumption. }
    cbv zeta. rewrite (find_user_none_existsb _ _ Hrange Habsent).
    split; [|split; [|split]].
    + intros _. split.
      * destruct (respond E _ _) as [reply|e]; [|reflexivity].
        destruct (get_method reply "id") as [nid|e]; [|reflexivity].
        destruct (bind_param nid); reflexivity.
      * intros reply nid v Hreply Hid Hbind. rewrite Hreply, Hid, Hbind. reflexivity.
    + destruct (respond E _ _) as [reply|e]; [|reflexivity].
      destruct (get_method reply "id") as [nid|e]; [|reflexivity].
      destruct (bind_param nid) as [v|e]; [|reflexivity].
      simpl. apply Hmiss.
    + destruct (respond E _ _) as [reply|e]; [|apply caught_not_updated].
      destruct (get_method reply "id") as [nid|e]; [|apply caught_not_updated].
      destruct (bind_param nid) as [v|e]; [|apply caught_not_updated].
      simpl. apply not_updated_message. left. reflexivity.
    + discriminate.
  - split; [discriminate|]. split; [reflexivity|].
    split; [apply caught_not_updated | auto].
Qed.

Lemma register_basiq_id_unknown_user_witness :
  users (db one_user) = Some (mk_users (user_list (db one_user)) 1) /\
  find_user 5 (user_list (db one_user)) = None /\
  trace (run (register_basiq_id lenient 5) one_user) =
    [CreateUserByDict (PStr "No user found with the given ID.") (PStr "token")] /\
  db (run (register_basiq_id lenient 5) one_user) = db one_user /\
  result (register_basiq_id lenient 5) one_user = Ret (PStr not_found) /\
  result (register_basiq_id lenient too_big) one_user = Raise OverflowError.
Proof.
  split; [reflexivity|]. split; [reflexivity|].
  destruct (register_basiq_id_unknown_user lenient 5 one_user
              (mk_users (user_list (db one_user)) 1) eq_refl eq_refl)
    as (Hin & Hdb & _ & _).
  destruct (Hin eq_refl) as (Htrace & Hanswer).
  destruct (register_basiq_id_unknown_user lenient too_big one_user
              (mk_users (user_list (db one_user)) 1) eq_refl eq_refl)
    as (_ & _ & _ & Hbig).
  split; [exact Htrace|]. split; [exact Hdb|].
  split; [|exact (proj1 (Hbig eq_refl))].
  exact (Hanswer (PDict [("id", PStr "basiq-1")]) (PStr "basiq-1") (SText "basiq-1")
                 eq_refl eq_refl eq_refl).
Defined.

(** X7.  Failures of the provider in [register_basiq_id].  When
    [get_user_info] returns (the user id is within SQLite's integers or the
    file has no [users] table), the provider is called with what it
    returned.  An exception of that call reaches the caller as it is (only an
    [sqlite3.Error] would be turned into a message); a reply that is not an
    object raises [AttributeError]; an [id] that is a list or an object is
    answered with a storage-error message.  In each case the call is logged
    and the store is what it was. *)
Theorem register_basiq_id_failures (E : environment) (u : Z) (w : world)
    (Hreturns : result (get_user_info u) w = Ret (user_info_answer u (db w))) :
  (forall e,
     respond E (trace w) (CreateUserByDict (user_info_answer u (db w)) (access_token E))
       = Raise e ->
     result (register_basiq_id E u) w = caught (Raise e) /\
     db (run (register_basiq_id E u) w) = db w) /\
  (forall reply,
     respond E (trace w) (CreateUserByDict (user_info_answer u (db w)) (access_token E))
       = Ret reply ->
     (forall d, reply <> PDict d) ->
     result (register_basiq_id E u) w = Raise AttributeError /\
     db (run (register_basiq_id E u) w) = db w) /\
  (forall reply new_basiq_id,
     respond E (trace w) (CreateUserByDict (user_info_answer u (db w)) (access_token E))
       = Ret reply ->
     get_method reply "id" = Ret new_basiq_id ->
     ((exists l, new_basiq_id = PList l) \/ (exists d, new_basiq_id = PDict d)) ->
     (exists v, result (register_basiq_id E u) w = Ret v /\ signal_of v = StorageError) /\
     db (run (register_basiq_id E u) w) = db w) /\
  trace (run (register_basiq_id E u) w) =
    trace w ++ [CreateUserByDict (user_info_answer u (db w)) (access_token E)].
Proof.
  unfold result in Hreturns. rewrite get_user_info_spec in Hreturns. cbn [fst] in Hreturns.
  unfold result, run. rewrite register_basiq_id_spec, Hreturns. cbv zeta.
  split; [|split; [|split]].
  - intros e He. rewrite He. auto.
  - intros reply Hreply Hshape. rewrite Hreply.
    destruct reply; simpl; auto. exfalso. eapply Hshape. reflexivity.
  - intros reply nid Hreply Hid Hkind. rewrite Hreply, Hid.
    destruct (users (db w)).
    + destruct Hkind as [(l & ->) | (d & ->)]; simpl;
        (split; [|reflexivity]); eexists; (split; [reflexivity | apply signal_of_error]).
    + simpl. split; [|reflexivity].
      eexists. split; [reflexivity | apply signal_of_error].
  - destruct (respond E _ _) as [reply|e]; [|reflexivity].
    destruct (get_method reply "id") as [nid|e]; [|reflexivity].
    destruct (users (db w)); [|reflexivity].
    destruct (bind_param nid) as [v|e]; reflexivity.
Qed.

Lemma register_basiq_id_failures_witness :
  result (get_user_info 1) one_user = Ret (user_info_answer 1 (db one_user)) /\
  respond offline (trace one_user)
    (CreateUserByDict (user_info_answer 1 (db one_user)) (access_token offline)) =
    Raise (OtherError "requests.exceptions.ConnectionError") /\
  result (register_basiq_id offline 1) one_user =
    Raise (OtherError "requests.exceptions.ConnectionError") /\
  db (run (register_basiq_id offline 1) one_user) = db one_user.
Proof.
  split; [reflexivity|]. split; [reflexivity|].
  exact (proj1 (register_basiq_id_failures offline 1 one_user eq_refl)
           (OtherError "requests.exceptions.ConnectionError") eq_refl).
Defined.

(** ** Who writes, who calls out *)

(** X21.  The five operations that only read ([get_basiq_id],
    [get_user_info], [link_bank_account], [request_transactions_df],
    [fetch_transactions_by_user]) never change a table, whatever they return
    or raise; and the seven operations other than [register_basiq_id],
    [link_bank_account] and [request_transactions_df] never call the
    provider or the browser. *)
Theorem reads_and_calls (E : environment) (o : op) (w : world) :
  (reads_only o = true -> db (step E o w) = db w) /\
  (stays_local o = true -> trace (step E o w) = trace w).
Proof.
  split; intros Hop; destruct o; simpl in *; try discriminate Hop; unfold run.
  - rewrite get_basiq_id_spec. reflexivity.
  - rewrite get_user_info_spec. reflexivity.
  - apply link_bank_account_db.
  - rewrite request_transactions_df_spec. destruct (answered _ _ _); reflexivity.
  - rewrite fetch_transactions_by_user_spec. reflexivity.
  - rewrite init_dolfin_db_spec. reflexivity.
  - rewrite register_user_spec.
    destruct (users (db w)) as [t|]; [|reflexivity].
    destruct (forallb bindable _); [|reflexivity].
    cbv zeta. destruct (int64_max <=? Z.max _ _); reflexivity.
  - rewrite get_basiq_id_spec. reflexivity.
  - rewrite get_user_info_spec. reflexivity.
  - rewrite cache_transactions_spec.
    destruct (insert_all (sqlite E) user_id tran_data (db w)) as [d'|e]; [reflexivity|].
    destruct e; reflexivity.
  - rewrite fetch_transactions_by_user_spec. reflexivity.
  - rewrite clear_transactions_spec. destruct (transactions (db w)); reflexivity.
Qed.

Lemma reads_and_calls_witness :
  reads_only (LinkBankAccount 1) = true /\
  db (step lenient (LinkBankAccount 1) linked_user) = db linked_user /\
  stays_local (CacheTransactions 1 [sample_row]) = true /\
  trace (step lenient (CacheTransactions 1 [sample_row]) linked_user) = trace linked_user.
Proof.
  split; [reflexivity|].
  split; [exact (proj1 (reads_and_calls lenient (LinkBankAccount 1) linked_user) eq_refl)|].
  split; [reflexivity|].
  exact (proj2 (reads_and_calls lenient (CacheTransactions 1 [sample_row]) linked_user) eq_refl).
Defined.

(** ** Before the schema exists *)

(** X22.  On a file without tables every operation on [users] answers with
    the storage-error message that names the missing table, and the
    operations on [transactions] likewise, whatever their arguments: the
    statement is rejected before a parameter is bound.  None changes the
    file, and [link_bank_account] does not reach the provider.  Once
    [init_dolfin_db] has run, the same reads, for an id within SQLite's
    integers, answer not-found and no longer report a storage error. *)
Theorem before_init_dolfin_db (E : environment) (w : world)
    (Husers : users (db w) = None) (Htransactions : transactions (db w) = None) :
  (forall e m f mi l p,
     result (register_user E e m f mi l p) w = Ret (PStr no_users_table) /\
     run (register_user E e m f mi l p) w = w) /\
  (forall u,
     result (get_basiq_id u) w = Ret (PStr no_users_table) /\
     result (get_user_info u) w = Ret (PStr no_users_table) /\
     result (link_bank_account E u) w = Ret (PStr no_users_table) /\
     run (link_bank_account E u) w = w) /\
  (forall u row rest,
     result (cache_transactions E u (row :: rest)) w = Ret (PStr no_transactions_table) /\
     run (cache_transactions E u (row :: rest)) w = w) /\
  result clear_transactions w = Ret (PStr no_transactions_table) /\
  run clear_transactions w = w /\
  (forall u, in_int64 u = true ->
     result (get_basiq_id u) (run init_dolfin_db w) = Ret (PStr not_found) /\
     result (get_user_info u) (run init_dolfin_db w) = Ret (PStr not_found)) /\
  result clear_transactions (run init_dolfin_db w) = Ret (PStr cleared_message).
Proof.
  unfold result, run.
  split; [|split; [|split; [|split; [|split; [|split]]]]].
  - intros e m f mi l p. rewrite register_user_spec, Husers. auto.
  - intros u. rewrite get_basiq_id_spec, get_user_info_spec, link_bank_account_spec.
    unfold basiq_answer, user_info_answer, answered. rewrite Husers. auto.
  - intros u row rest. rewrite cache_transactions_spec. cbn [insert_all].
    unfold insert_transaction. rewrite Htransactions. simpl. auto.
  - rewrite clear_transactions_spec, Htransactions. reflexivity.
  - rewrite clear_transactions_spec, Htransactions. reflexivity.
  - intros u Hrange. rewrite init_dolfin_db_spec, get_basiq_id_spec, get_user_info_spec.
    unfold basiq_answer, user_info_answer, answered. cbn [snd db users]. rewrite Husers.
    cbn [user_rows]. unfold find_user. rewrite Hrange. auto.
  - rewrite init_dolfin_db_spec, clear_transactions_spec. reflexivity.
Qed.

Lemma before_init_dolfin_db_witness :
  users (db fresh) = None /\ transactions (db fresh) = None /\
  result (get_user_info 1) fresh = Ret (PStr "An error occurred: no such table: users") /\
  result (cache_transactions lenient 1 [sample_row]) fresh =
    Ret (PStr "An error occurred: no such table: transactions") /\
  result (get_user_info 1) (run init_dolfin_db fresh) = Ret (PStr not_found).
Proof.
  split; [reflexivity|]. split; [reflexivity|].
  destruct (before_init_dolfin_db lenient fresh eq_refl eq_refl)
    as (_ & Hreads & Hcache & _ & _ & Hafter & _).
  destruct (Hreads 1) as (_ & Hinfo & _).
  split; [exact Hinfo|].
  split; [exact (proj1 (Hcache 1 sample_row []))|].
  exact (proj2 (Hafter 1 eq_refl)).
Defined.

(** ** The keys [register_user] issues *)



